(** * Congestion-control experiment harness: embedding and verified properties

    A shallow embedding of the experiment scripts

      - [scripts/tc_experiment.py]          (module [Tc])
      - [scripts/run_experiments.py]        (module [Pantheon])
      - [scripts/analyze_manual_results.py] (modules [AnalyzeManual], [RttChart])

    [scripts/analyze_results.py] is not embedded: its text is no Python
    program (a damaged second copy of its functions is joined to the first
    in the middle of line 246, and the call at line 379 is cut short), so
    the interpreter rejects the file before any of its functions can run.

    Python numbers are modelled by exact rationals ([Q]): an [int] is an
    integral rational, true division [/] is rational division and raises
    on a zero divisor; the rounding of floating-point arithmetic is not
    modelled.  JSON objects read with [d.get(k, default)] are finite maps
    or records with optional fields.  External processes, the host's files
    and the /proc file system are an explicit [host] oracle that may
    depend on everything that happened before; subprocess invocations and
    the entries of the functions the properties speak about are recorded
    in an event trace.  The store holds the files that the scripts open
    for writing and the file that the shell opens for the traffic
    generator's output.  Directory creation ([os.makedirs], [os.chdir]) and
    console output are left out. *)

From Stdlib Require Import ZArith QArith Qround List Ascii String Lia.
From stdpp Require Import base option list strings gmap fin_maps.

Local Open Scope Z_scope.

(** ** Python helpers *)

Module Py.

(** [x > 0] on numbers. *)
Definition gt0 (x : Q) : bool := 0 <? Qnum x.

(** [int(x)]: truncation towards zero. *)
Definition int (x : Q) : Z := Z.quot (Qnum x) (Zpos (Qden x)).

(** [a / b]: true division; [None] stands for [ZeroDivisionError]. *)
Definition div (a b : Q) : option Q :=
  if Qeq_bool b 0 then None else Some (a / b)%Q.

(** [min(a, b)]: the first argument unless the second is strictly smaller. *)
Definition min (a b : Q) : Q := if Qlt_le_dec b a then b else a.

(** [d.get(k, 0)] on a JSON object whose values are numbers. *)
Definition get0 (d : gmap string Q) (k : string) : Q := default 0%Q (d !! k).

End Py.

(** ** The host: files, subprocesses, events and the effect monad *)

Module Sys.

(** A file name, as its list of components under the home directory. *)
Definition path := list string.

(** Raw output of the traffic generator ([iperf3 -J]): every interval has
    a list of per-stream objects and an optional ["sum"] object; both are
    JSON objects with numeric values. *)
Record interval := {
  streams : list (gmap string Q);
  sum : option (gmap string Q)
}.

Record iperf_data := { intervals : option (list interval) }.

(** [result.json]: a JSON object read with [.get(key, 0)]. *)
Record result_data := {
  cc_algorithm : option string;
  profile : option string;
  avg_throughput : option Q;
  avg_delay : option Q;
  loss_rate : option Q
}.

(** A CSV field: a number, a text, or the empty field written for [nan]. *)
Inductive cell := Num (q : Q) | Str (s : string) | NaN.

Record csv := { columns : list string; rows : list (list cell) }.

(** [Log] and [Capture] are files that receive the output of a subprocess:
    the log of a command and the raw output of the traffic generator. *)
Inductive file :=
| Json (r : result_data)
| Csv (t : csv)
| Png
| Log
| Capture.

(** The command lines handed to [run_command]. *)
Inductive command :=
| TcQdiscDelRoot (interface : string)
| TcQdiscAddHtb (interface : string)
| TcClassAddRate (interface : string) (bandwidth_mbps : Z)
| TcQdiscAddNetem (interface : string) (delay_ms queue_size_bytes : Z)
| SysctlCongestionControl (cc : string)
| Iperf3Server (port : Z)
| Iperf3Client (port runtime : Z) (out : path)
| KillallIperf3
| PantheonDryRun (scheme : string)
| PantheonSetup (scheme : string)
| PantheonTest (scheme : string) (data_dir : path) (runtime : Z)
    (trace_file : path) (delay_ms queue_size_bytes : Z)
| PantheonAnalyze (data_dir : path).

(** Function entries recorded in the trace. *)
Inductive call :=
| setup_tc_call (interface : string) (bandwidth_mbps delay_ms queue_size_bytes : Z)
| cleanup_tc_call (interface : string)
| run_experiment_call (cc prof : string) (runtime : Z)
| run_single_experiment_call (scheme prof : string) (runtime : Z).

Inductive event :=
| Spawn (cmd : command)
| Call (c : call).

Inductive exn :=
| OSError
| CalledProcessError
| JSONError
| IOError
| ParserError
| TypeError
| ZeroDivisionError.

(** What the environment answers, given the events so far. *)
Record host := {
  (** contents of /proc/sys/net/ipv4/tcp_available_congestion_control;
      [None] when it cannot be read *)
  available_congestion_control : option (list string);
  (** stripped output of [ip route | grep default | awk '{print $5}'];
      [None] when [check_output] raises *)
  default_interface : list event -> option string;
  (** exit status of a subprocess; [None] when [Popen] raises *)
  popen : list event -> command -> option Z;
  (** [json.load] of the traffic generator's output file *)
  load_iperf : list event -> path -> option iperf_data;
  (** whether [open(p, 'w')] succeeds *)
  writable : list event -> path -> bool
}.

Record state := {
  trace : list event;
  files : gmap path file
}.

Inductive outcome (A : Type) :=
| Return (a : A)
| Raise (e : exn).
Arguments Return {A} a.
Arguments Raise {A} e.

Definition M (A : Type) : Type := state -> state * outcome A.

Definition ret {A} (a : A) : M A := fun s => (s, Return a).

Definition raise {A} (e : exn) : M A := fun s => (s, Raise e).

Definition bind {A B} (m : M A) (k : A -> M B) : M B :=
  fun s =>
    match m s with
    | (s1, Return a) => k a s1
    | (s1, Raise e) => (s1, Raise e)
    end.

(** [try: body  except Exception as e: handler(e)] *)
Definition try_except {A} (body : M A) (handler : exn -> M A) : M A :=
  fun s =>
    match body s with
    | (s1, Return a) => (s1, Return a)
    | (s1, Raise e) => handler e s1
    end.

(** [try: body  finally: final]; the [finally] block has no [return], so
    the result of [body] stands unless [final] itself raises. *)
Definition try_finally {A} (body : M A) (final : M unit) : M A :=
  fun s =>
    match body s with
    | (s1, r) =>
        match final s1 with
        | (s2, Return _) => (s2, r)
        | (s2, Raise e) => (s2, Raise e)
        end
    end.

Definition emit (e : event) : M unit :=
  fun s => ({| trace := trace s ++ [e]; files := files s |}, Return tt).

Definition history : M (list event) := fun s => (s, Return (trace s)).

Definition read_files : M (gmap path file) := fun s => (s, Return (files s)).

(** [with open(p, 'w') as f: <dump content>] *)
Definition write_file (h : host) (p : path) (content : file) : M unit :=
  fun s =>
    if writable h (trace s) p
    then ({| trace := trace s; files := <[p := content]> (files s) |}, Return tt)
    else (s, Raise IOError).

(** [for x in xs: body(x)] *)
Fixpoint for_each {A} (xs : list A) (body : A -> M unit) : M unit :=
  match xs with
  | [] => ret tt
  | x :: xs' => bind (body x) (fun _ => for_each xs' body)
  end.

(** [results = []; for x in xs: results.append(f(x))] *)
Fixpoint collect {A B} (xs : list A) (f : A -> M B) : M (list B) :=
  match xs with
  | [] => ret []
  | x :: xs' => bind (f x) (fun r => bind (collect xs' f) (fun rs => ret (r :: rs)))
  end.

#[global] Instance M_ret : MRet M := @ret.
#[global] Instance M_bind : MBind M := fun A B k m => bind m k.

(** [run_command(cmd, log_file)], the same function in both runner scripts:
    the log file, when given, is opened for writing before the subprocess
    is started; the function waits and returns the exit status. *)
Definition run_command (h : host) (cmd : command) (log_file : option path) : M Z :=
  match log_file with
  | Some p => write_file h p Log
  | None => ret tt
  end;;
  past ← history;
  emit (Spawn cmd);;
  match popen h past cmd with
  | Some returncode => ret returncode
  | None => raise OSError
  end.

(** The shell's [cmd > p] of a command line run with [shell=True]: the
    shell creates or truncates [p] for the output of [cmd]; when [p] cannot
    be opened the shell reports it, and no exception reaches the script. *)
Definition redirect (h : host) (p : path) : M unit :=
  fun s =>
    if writable h (trace s) p
    then ({| trace := trace s; files := <[p := Capture]> (files s) |}, Return tt)
    else (s, Return tt).

(** ~/networks_assignment *)
Definition base_dir : path := ["networks_assignment"%string].

End Sys.

(** ** scripts/tc_experiment.py *)

Module Tc.
Import Sys.

Local Open Scope string_scope.
Local Open Scope list_scope.

(** [get_available_cc_algorithms()] *)
Definition get_available_cc_algorithms (h : host) : list string :=
  match available_congestion_control h with
  | Some algorithms => algorithms
  | None => ["cubic"; "bbr"; "vegas"]
  end.

(** [setup_tc(interface, bandwidth_mbps, delay_ms, queue_size_bytes)] *)
Definition setup_tc (h : host) (interface : string)
    (bandwidth_mbps delay_ms queue_size_bytes : Z) : M unit :=
  emit (Call (setup_tc_call interface bandwidth_mbps delay_ms queue_size_bytes));;
  run_command h (TcQdiscDelRoot interface) None;;
  run_command h (TcQdiscAddHtb interface) None;;
  run_command h (TcClassAddRate interface bandwidth_mbps) None;;
  run_command h (TcQdiscAddNetem interface delay_ms queue_size_bytes) None;;
  mret tt.

(** [cleanup_tc(interface)] *)
Definition cleanup_tc (h : host) (interface : string) : M unit :=
  emit (Call (cleanup_tc_call interface));;
  run_command h (TcQdiscDelRoot interface) None;;
  mret tt.

(** [int(bandwidth_mbps * 1000000 * delay_ms / 8 / 1000)], the BDP in bytes *)
Definition queue_size (bandwidth_mbps delay_ms : Z) : Z :=
  Py.int (inject_Z (bandwidth_mbps * 1000000 * delay_ms) / 8 / 1000)%Q.

(** The profile branch of [run_experiment]:
    [(delay_ms, bandwidth_mbps, queue_size_bytes)], [None] for an unknown
    profile. *)
Definition profile_parameters (profile : string) : option (Z * Z * Z) :=
  if (profile =? "profile1")%string then
    let delay_ms := 10 in
    let bandwidth_mbps := 50 in
    Some (delay_ms, bandwidth_mbps, queue_size bandwidth_mbps delay_ms)
  else if (profile =? "profile2")%string then
    let delay_ms := 200 in
    let bandwidth_mbps := 1 in
    Some (delay_ms, bandwidth_mbps, queue_size bandwidth_mbps delay_ms)
  else None.

(** One row of [throughput_data]. *)
Record sample := { time : Q; throughput : Q; delay : Q; loss : Q }.

(** The loop state of the interval loop. *)
Record totals := {
  throughput_data : list sample;
  total_throughput : Q;
  total_retransmits : Q;
  total_bytes : Q
}.

Definition no_totals : totals :=
  {| throughput_data := []; total_throughput := 0;
     total_retransmits := 0; total_bytes := 0 |}.

(** [interval.get('sum', {}).get(key, 0)] *)
Definition sum_field (interval : interval) (key : string) : Q :=
  let sum_data := default ∅ (sum interval) in
  Py.get0 sum_data key.

(** The per-interval measurements of the loop body. *)
Definition interval_sample (delay_ms : Z) (interval : interval) : option sample :=
  let seconds := sum_field interval "seconds" in
  let bytes_transferred := sum_field interval "bytes" in
  let retransmits := sum_field interval "retransmits" in
  (* Calculate throughput in Mbps *)
  throughput_ ←
    (if Py.gt0 seconds
     then Py.div (bytes_transferred * 8) (seconds * 1000000) else Some 0%Q);
  (* Calculate approximate packet loss based on retransmits *)
  packets_sent ←
    (if Py.gt0 bytes_transferred then Py.div bytes_transferred 1500 else Some 1%Q);
  loss_rate_ ←
    (if Py.gt0 packets_sent then Py.div retransmits packets_sent else Some 0%Q);
  Some {| time := sum_field interval "start";
          throughput := throughput_;
          delay := inject_Z (delay_ms * 2);
          loss := loss_rate_ |}.

(** The body of [for interval in intervals]. *)
Definition process_interval (delay_ms : Z) (acc : totals) (interval : interval)
  : option totals :=
  let bytes_transferred := sum_field interval "bytes" in
  let retransmits := sum_field interval "retransmits" in
  data ← interval_sample delay_ms interval;
  Some {| throughput_data := throughput_data acc ++ [data];
          total_throughput := (total_throughput acc + throughput data)%Q;
          total_retransmits := (total_retransmits acc + retransmits)%Q;
          total_bytes := (total_bytes acc + bytes_transferred)%Q |}.

(** [for interval in intervals: ...] *)
Fixpoint process_intervals (delay_ms : Z) (intervals : list interval) (acc : totals)
  : option totals :=
  match intervals with
  | [] => Some acc
  | interval :: rest =>
      acc' ← process_interval delay_ms acc interval;
      process_intervals delay_ms rest acc'
  end.

(** The reduction of the raw intervals to the interval series and the
    [result] dictionary ("Process each interval", "Calculate averages",
    "Save results" in [run_experiment]); [None] stands for a
    [ZeroDivisionError]. *)
Definition reduce (cc_algorithm profile : string) (delay_ms : Z)
    (intervals : list interval) : option (list sample * result_data) :=
  acc ← process_intervals delay_ms intervals no_totals;
  let num_intervals := Z.of_nat (length intervals) in
  avg_throughput_ ←
    (if (0 <? num_intervals)%Z
     then Py.div (total_throughput acc) (inject_Z num_intervals) else Some 0%Q);
  total_packets ←
    (if Py.gt0 (total_bytes acc) then Py.div (total_bytes acc) 1500 else Some 1%Q);
  avg_loss_rate ←
    (if Py.gt0 total_packets
     then Py.div (total_retransmits acc) total_packets else Some 0%Q);
  Some (throughput_data acc,
        {| Sys.cc_algorithm := Some cc_algorithm;
           Sys.profile := Some profile;
           avg_throughput := Some avg_throughput_;
           avg_delay := Some (inject_Z (delay_ms * 2));
           loss_rate := Some avg_loss_rate |}).

(** [csv.DictWriter(f, fieldnames=['time','throughput','delay','loss'])] *)
Definition throughput_csv (throughput_data : list sample) : csv :=
  {| columns := ["time"; "throughput"; "delay"; "loss"];
     rows := map (fun data => [Num (time data); Num (throughput data);
                               Num (delay data); Num (loss data)])
                 throughput_data |}.

Definition data_dir (profile cc_algorithm : string) : path :=
  base_dir ++ ["data"; profile +:+ "_" +:+ cc_algorithm].

(** [subprocess.check_output("ip route | grep default | awk '{print $5}'")] *)
Definition get_default_interface (h : host) : M string :=
  past ← history;
  match default_interface h past with
  | Some interface => mret interface
  | None => raise CalledProcessError
  end.

(** [json.load] of [iperf_result.json] *)
Definition load_iperf_result (h : host) (p : path) : M iperf_data :=
  past ← history;
  match load_iperf h past p with
  | Some iperf_data => mret iperf_data
  | None => raise JSONError
  end.

(** [run_experiment(cc_algorithm, profile, runtime)] *)
Definition run_experiment (h : host) (cc_algorithm profile : string) (runtime : Z) : M Z :=
  emit (Call (run_experiment_call cc_algorithm profile runtime));;
  let data_dir := data_dir profile cc_algorithm in
  let results_file := data_dir ++ ["result.json"] in
  let throughput_file := data_dir ++ [cc_algorithm +:+ "_throughput.csv"] in
  match profile_parameters profile with
  | None => mret 1
  | Some (delay_ms, bandwidth_mbps, queue_size_bytes) =>
      interface ← get_default_interface h;
      if (interface =? "")%string then mret 1 else
      run_command h (SysctlCongestionControl cc_algorithm) None;;
      try_finally
        (try_except
           (setup_tc h interface bandwidth_mbps delay_ms queue_size_bytes;;
            let server_port := 5050 in
            run_command h (Iperf3Server server_port) None;;
            (* iperf3 -c localhost ... -J > {data_dir}/iperf_result.json *)
            run_command h
              (Iperf3Client server_port runtime (data_dir ++ ["iperf_result.json"])) None;;
            redirect h (data_dir ++ ["iperf_result.json"]);;
            iperf_data ← load_iperf_result h (data_dir ++ ["iperf_result.json"]);
            let intervals := default [] (intervals iperf_data) in
            match reduce cc_algorithm profile delay_ms intervals with
            | None => raise ZeroDivisionError
            | Some (throughput_data, result) =>
                write_file h results_file (Json result);;
                write_file h throughput_file (Csv (throughput_csv throughput_data));;
                mret 0
            end)
           (fun e => mret 1))
        (cleanup_tc h interface;;
         run_command h KillallIperf3 None;;
         mret tt)
  end.

Record args := { schemes : list string; profiles : list string; runtime : Z }.

(** [main()]; the "Experiment failed" message is the only reaction to a
    non-zero [result]. *)
Definition main (h : host) (a : args) : M Z :=
  let available_algorithms := get_available_cc_algorithms h in
  let schemes :=
    List.filter (fun scheme => bool_decide (scheme ∈ available_algorithms)) (schemes a) in
  match schemes with
  | [] => mret 1
  | _ =>
      for_each schemes (fun scheme =>
        for_each (profiles a) (fun profile =>
          result ← run_experiment h scheme profile (runtime a);
          (* if result != 0: print("Experiment failed for ...") *)
          mret tt));;
      mret 0
  end.

(** [if __name__ == "__main__": main()]: the value of [main] is dropped;
    the interpreter exits with 0, or with 1 on an uncaught exception. *)
Definition exit_status (h : host) (a : args) (s : state) : state * Z :=
  match main h a s with
  | (s', Return _) => (s', 0)
  | (s', Raise _) => (s', 1)
  end.

End Tc.

(** ** scripts/run_experiments.py

    The file holds its functions twice; the script ends the interpreter
    with [sys.exit(main())] after the first copy, which is the one embedded
    here.  The second copy of [run_single_experiment] differs in having no
    availability check and no installation step. *)

Module Pantheon.
Import Sys.

Local Open Scope string_scope.
Local Open Scope list_scope.

(** The profile branch of [run_single_experiment]:
    [(delay_ms, bandwidth_mbps, queue_size_bytes, trace_file)]. *)
Definition profile_parameters (profile : string) : option (Z * Z * Z * path) :=
  if (profile =? "profile1")%string then
    Some (10, 50, 62500, base_dir ++ ["traces"; "50mbps.trace"])
  else if (profile =? "profile2")%string then
    Some (200, 1, 25000, base_dir ++ ["traces"; "1mbps.trace"])
  else None.

(** [run_single_experiment(scheme, profile, runtime)] *)
Definition run_single_experiment (h : host) (scheme profile : string) (runtime : Z) : M Z :=
  emit (Call (run_single_experiment_call scheme profile runtime));;
  let data_dir := base_dir ++ ["data"; profile +:+ "_" +:+ scheme] in
  let log_file := profile +:+ "_" +:+ scheme +:+ ".log" in
  match profile_parameters profile with
  | None => mret 1
  | Some (delay_ms, bandwidth_mbps, queue_size_bytes, trace_file) =>
      (* Check if the scheme is installed *)
      ret_ ← run_command h (PantheonDryRun scheme) None;
      (if negb (Z.eqb ret_ 0)
       then run_command h (PantheonSetup scheme) None;; mret tt
       else mret tt);;
      (* Run the experiment *)
      ret_ ← run_command h
               (PantheonTest scheme data_dir runtime trace_file delay_ms queue_size_bytes)
               (Some (base_dir ++ ["logs"; log_file]));
      if negb (Z.eqb ret_ 0) then mret ret_ else
      (* Analyze the results *)
      ret_ ← run_command h (PantheonAnalyze data_dir)
               (Some (base_dir ++ ["logs"; log_file +:+ ".analyze"]));
      mret ret_
  end.

Record args := {
  schemes : list string;
  profiles : list string;
  runtime : Z;
  parallel : Z
}.

(** "Prepare experiment combinations" *)
Definition experiments (a : args) : list (string * string * Z) :=
  flat_map (fun scheme => map (fun profile => (scheme, profile, runtime a)) (profiles a))
           (schemes a).

(** [Pool(n).starmap(f, experiments)]: the tasks run concurrently in [n]
    worker processes and the results come back in submission order.  The
    model runs the tasks one after the other in that order: this fixes
    the list of results, which is all that [main] looks at, but it puts
    the events of different tasks in an order that the pool does not
    keep.  What is said about the order of events is therefore said of
    the sequential loop only. *)
Definition starmap {A B} (n : Z) (f : A -> M B) (xs : list A) : M (list B) :=
  collect xs f.

(** [run_single_experiment] applied to the unpacked tuple [exp] *)
Definition run_exp (h : host) (exp : string * string * Z) : M Z :=
  let '(scheme, profile, runtime) := exp in
  run_single_experiment h scheme profile runtime.

(** "Run experiments in parallel or sequentially" *)
Definition run_all (h : host) (a : args) : M (list Z) :=
  if (1 <? parallel a)%Z
  then starmap (parallel a) (run_exp h) (experiments a)
  else collect (experiments a) (run_exp h).

(** [main()] *)
Definition main (h : host) (a : args) : M Z :=
  results ← run_all h a;
  (* Check if all experiments succeeded *)
  if forallb (fun r => Z.eqb r 0) results then mret 0 else mret 1.

(** [sys.exit(main())] *)
Definition exit_status (h : host) (a : args) (s : state) : state * Z :=
  match main h a s with
  | (s', Return code) => (s', code)
  | (s', Raise _) => (s', 1)
  end.

End Pantheon.

(** ** Strings, dictionaries and directory listings used by the analysis scripts *)

Module PyData.
Import Sys.

Local Open Scope string_scope.
Local Open Scope list_scope.

(** [s.split('_', 1)] when ['_' in s]: the text before and after the first
    underscore; [None] when [s] has no underscore. *)
Fixpoint split_once (s : string) : option (string * string) :=
  match s with
  | EmptyString => None
  | String c s' =>
      if Ascii.eqb c "_"%char then Some (EmptyString, s')
      else match split_once s' with
           | Some (a, b) => Some (String c a, b)
           | None => None
           end
  end.

(** A Python [dict] with string keys: insertion-ordered. *)
Definition dict (V : Type) := list (string * V).

Fixpoint dict_get {V} (k : string) (d : dict V) : option V :=
  match d with
  | [] => None
  | (k', v) :: d' => if (k =? k')%string then Some v else dict_get k d'
  end.

(** [d[k] = v] *)
Fixpoint dict_set {V} (k : string) (v : V) (d : dict V) : dict V :=
  match d with
  | [] => [(k, v)]
  | (k', v') :: d' =>
      if (k =? k')%string then (k, v) :: d' else (k', v') :: dict_set k v d'
  end.

(** [results[profile][scheme] = v], creating [results[profile]] if absent *)
Definition dict_set2 {V} (profile scheme : string) (v : V) (results : dict (dict V))
  : dict (dict V) :=
  dict_set profile (dict_set scheme v (default [] (dict_get profile results))) results.

(** [results[profile][scheme]], when both keys are present *)
Definition dict_get2 {V} (profile scheme : string) (results : dict (dict V)) : option V :=
  match dict_get profile results with
  | Some schemes => dict_get scheme schemes
  | None => None
  end.

(** The last character of a file name. *)
Fixpoint last_char (s : string) : option ascii :=
  match s with
  | EmptyString => None
  | String c EmptyString => Some c
  | String _ s' => last_char s'
  end.

(** The field under column [name] in the first row of a table whose
    first field is the text [scheme]. *)
Definition table_cell (t : csv) (scheme name : string) : option cell :=
  match list_find (fun c => c = name) (columns t),
        List.find (fun row => match row with
                              | Str s :: _ => (s =? scheme)%string
                              | _ => false
                              end) (rows t) with
  | Some (i, _), Some row => row !! i
  | _, _ => None
  end.

(** [p] with the leading [dir] removed, when [p] lies below [dir]. *)
Fixpoint below (dir p : path) : option path :=
  match dir, p with
  | [], _ => Some p
  | d :: dir', c :: p' => if (d =? c)%string then below dir' p' else None
  | _ :: _, [] => None
  end.

(** The shell pattern [*] does not match names that start with a dot. *)
Definition hidden (name : string) : bool :=
  match name with
  | String c _ => Ascii.eqb c "."%char
  | EmptyString => false
  end.

(** [glob.glob(f"{data_dir}/*/result.json")], as the list of matching
    directory names; the order is the one of the directory listing. *)
Definition glob_result_dirs (fs : gmap path file) (data_dir : path) : list string :=
  omap (fun '(p, _) =>
          match below data_dir p with
          | Some [dir_name; name] =>
              if (name =? "result.json")%string && negb (hidden dir_name)
              then Some dir_name else None
          | _ => None
          end)
       (map_to_list fs).

(** [pd.DataFrame(columns=['time', 'throughput', 'delay', 'loss'])] *)
Definition empty_frame : csv :=
  {| columns := ["time"; "throughput"; "delay"; "loss"]; rows := [] |}.

(** [df[name]] as numbers; [None] when the column is absent or holds a
    cell that is not a number. *)
Definition column (df : csv) (name : string) : option (list Q) :=
  match list_find (fun c => c = name) (columns df) with
  | Some (i, _) =>
      mapM (fun row => match row !! i with
                       | Some (Num q) => Some q
                       | _ => None
                       end) (rows df)
  | None => None
  end.

Fixpoint insert_sorted (x : Q) (l : list Q) : list Q :=
  match l with
  | [] => [x]
  | y :: l' => if Qle_bool x y then x :: l else y :: insert_sorted x l'
  end.

(** [np.percentile(a, q)] with linear interpolation between the two
    nearest ranks; [None] stands for [nan] on an empty array. *)
Definition percentile (a : list Q) (q : Q) : option Q :=
  match fold_right insert_sorted [] a with
  | [] => None
  | (x0 :: _) as sorted =>
      let n := Z.of_nat (length sorted) in
      let pos := (q / 100 * inject_Z (n - 1))%Q in
      let lo := Qfloor pos in
      let a_lo := nth (Z.to_nat lo) sorted x0 in
      let a_hi := nth (Z.to_nat (lo + 1)) sorted a_lo in
      Some (a_lo + (pos - inject_Z lo) * (a_hi - a_lo))%Q
  end.

End PyData.

(** ** scripts/analyze_manual_results.py *)

Module AnalyzeManual.
Import Sys PyData.

Local Open Scope string_scope.
Local Open Scope list_scope.

(** The value stored in [results[profile][scheme]]. *)
Record entry := {
  avg_throughput : Q;
  avg_delay : Q;
  loss_rate : Q;
  throughput_data : csv
}.

(** "For localhost testing with artificial limits, adjust throughput based
    on profile" *)
Definition adjusted_throughput (profile : string) (result_data : result_data) : Q :=
  let raw := default 0%Q (Sys.avg_throughput result_data) in
  if (profile =? "profile1")%string then Py.min raw 50
  else if (profile =? "profile2")%string then Py.min raw 1
  else raw.

(** The body of [for result_file in result_files]: [None] where the source
    executes [continue]. *)
Definition load_result (fs : gmap path file) (data_dir : path) (dir_name : string)
  : option (string * string * entry) :=
  match split_once dir_name with
  | None => None
  | Some (profile, scheme) =>
      match fs !! (data_dir ++ [dir_name; "result.json"]) with
      | Some (Json result_data) =>
          let throughput_data :=
            match fs !! (data_dir ++ [dir_name; scheme +:+ "_throughput.csv"]) with
            | Some (Csv t) => t
            | _ => empty_frame
            end in
          Some (profile, scheme,
                {| avg_throughput := adjusted_throughput profile result_data;
                   avg_delay := default 0%Q (Sys.avg_delay result_data);
                   loss_rate := default 0%Q (Sys.loss_rate result_data);
                   throughput_data := throughput_data |})
      | _ => None
      end
  end.

(** "Process result files" *)
Definition collect_results (fs : gmap path file) (data_dir : path)
    (result_files : list string) : dict (dict entry) :=
  fold_left (fun results dir_name =>
               match load_result fs data_dir dir_name with
               | Some (profile, scheme, e) => dict_set2 profile scheme e results
               | None => results
               end)
            result_files [].

(** [pd.DataFrame(table_data)] for one profile *)
Definition comparison_table (schemes : dict entry) : csv :=
  {| columns := ["Scheme"; "Avg Throughput (Mbps)"; "Avg RTT (ms)"; "Loss Rate"];
     rows := map (fun '(scheme, data) =>
                    [Str scheme; Num (avg_throughput data);
                     Num (avg_delay data); Num (loss_rate data)])
                 schemes |}.

Definition comparison_file (output_dir : path) (profile : string) : path :=
  output_dir ++ [profile +:+ "_comparison.csv"].

(** [analyze_results(data_dir, output_dir)] *)
Definition analyze_results (h : host) (data_dir output_dir : path) : M Z :=
  fs ← read_files;
  let result_files := glob_result_dirs fs data_dir in
  match result_files with
  | [] => mret 1
  | _ =>
      let results := collect_results fs data_dir result_files in
      match results with
      | [] => mret 1
      | _ =>
          (* Generate comparative tables *)
          for_each results (fun '(profile, schemes) =>
            match schemes with
            | [] => mret tt
            | _ => write_file h (comparison_file output_dir profile)
                     (Csv (comparison_table schemes))
            end);;
          (* Generate throughput vs RTT plot *)
          write_file h (output_dir ++ ["throughput_vs_rtt.png"]) Png;;
          (* Generate time-series plots for each profile *)
          for_each results (fun '(profile, schemes) =>
            write_file h (output_dir ++ [profile +:+ "_throughput_time.png"]) Png;;
            write_file h (output_dir ++ [profile +:+ "_loss_time.png"]) Png;;
            write_file h (output_dir ++ [profile +:+ "_rtt_comparison.png"]) Png);;
          mret 0
      end
  end.

End AnalyzeManual.

(** ** Observations on event traces *)

Module Trace.
Import Sys.

Definition is_cleanup (e : event) : bool :=
  match e with Call (cleanup_tc_call _) => true | _ => false end.

Definition is_setup (e : event) : bool :=
  match e with Call (setup_tc_call _ _ _ _) => true | _ => false end.

Definition is_install (e : event) : bool :=
  match e with Spawn (PantheonSetup _) => true | _ => false end.


(** Number of events of a kind in a trace. *)
Definition count (p : event -> bool) (t : list event) : nat :=
  length (List.filter p t).

(** Number of calls of [cleanup_tc] and of [setup_tc]. *)
Definition teardowns (t : list event) : nat := count is_cleanup t.
Definition setups (t : list event) : nat := count is_setup t.

(** The trials started by a batch, in order:
    [(scheme, profile)] of every entry of a runner function. *)
Definition trials (t : list event) : list (string * string) :=
  omap (fun e => match e with
                 | Call (run_experiment_call cc prof _) => Some (cc, prof)
                 | Call (run_single_experiment_call scheme prof _) => Some (scheme, prof)
                 | _ => None
                 end) t.

(** A computation that adds exactly [n] events of kind [p] to the trace,
    whether it returns or raises. *)
Definition adds {A} (p : event -> bool) (n : nat) (m : M A) : Prop :=
  forall s, count p (trace (m s).1) = (count p (trace s) + n)%nat.

(** A computation that starts exactly the trials [l], whether it returns
    or raises. *)
Definition starts {A} (l : list (string * string)) (m : M A) : Prop :=
  forall s, trials (trace (m s).1) = trials (trace s) ++ l.

(** A computation that has started exactly the trials [l] when it returns. *)
Definition on_return {A} (l : list (string * string)) (m : M A) : Prop :=
  forall s s' a, m s = (s', Return a) -> trials (trace s') = trials (trace s) ++ l.

(** A computation that leaves every file outside [P] as it was, whether
    it returns or raises. *)
Definition writes_only {A} (P : path -> Prop) (m : M A) : Prop :=
  forall s p, ~ P p -> files (m s).1 !! p = files s !! p.

(** The files written by the analysis scripts: below [output_dir], with a
    name that ends in the given character. *)
Definition output_named (output_dir : path) (c : ascii) (p : path) : Prop :=
  exists name, p = output_dir ++ [name] /\ PyData.last_char name = Some c.

End Trace.

(** ** Concrete hosts and inputs used by the examples *)

Module Examples.
Import Sys.

Local Open Scope string_scope.
Local Open Scope list_scope.

(** An interval whose ["sum"] object has the three fields of the capture. *)
Definition capture (seconds bytes retransmits : Q) : interval :=
  {| streams := [];
     sum := Some (<["seconds" := seconds]>
                  (<["bytes" := bytes]> (<["retransmits" := retransmits]> ∅))) |}.

(** The same, with a measured round-trip time in the per-stream object. *)
Definition capture_with_rtt (seconds bytes retransmits rtt : Q) : interval :=
  {| streams := [ <["rtt" := rtt]> ∅ ];
     sum := Some (<["seconds" := seconds]>
                  (<["bytes" := bytes]>
                   (<["retransmits" := retransmits]> (<["rtt" := rtt]> ∅)))) |}.

(** One second in which nothing was sent and three segments were retransmitted. *)
Definition stalled_interval : interval := capture 1 0 3.

Definition fresh : state := {| trace := []; files := ∅ |}.

(** A host on which everything works: [eth0] is the default interface,
    every command exits with 0, the generator reports one interval. *)
Definition healthy : host :=
  {| available_congestion_control := Some ["cubic"; "bbr"];
     default_interface := fun _ => Some "eth0";
     popen := fun _ _ => Some 0;
     load_iperf := fun _ _ => Some {| intervals := Some [capture 1 125000 0] |};
     writable := fun _ _ => true |}.


(** A host on which the capture of one trial, cubic under profile2, leaves
    no readable output; everything else works. *)
Definition one_capture_lost : host :=
  {| available_congestion_control := Some ["cubic"; "bbr"];
     default_interface := fun _ => Some "eth0";
     popen := fun _ _ => Some 0;
     load_iperf := fun _ p =>
       if bool_decide (p = Tc.data_dir "profile2" "cubic" ++ ["iperf_result.json"])
       then None
       else Some {| intervals := Some [capture 1 125000 0] |};
     writable := fun _ _ => true |}.

Definition two_by_two : Tc.args :=
  {| Tc.schemes := ["cubic"; "bbr"]; Tc.profiles := ["profile1"; "profile2"];
     Tc.runtime := 60 |}.

Definition one_bad_profile : Tc.args :=
  {| Tc.schemes := ["cubic"]; Tc.profiles := ["profile1"; "profile3"];
     Tc.runtime := 60 |}.

(** A store holding one trial, cubic under profile2, whose recorded average
    throughput of 3.4 Mbps overshoots the 1 Mbps link. *)
Definition overshoot : result_data :=
  {| cc_algorithm := Some "cubic"; profile := Some "profile2";
     avg_throughput := Some (34 # 10); avg_delay := Some 400%Q;
     loss_rate := Some 0%Q |}.

Definition data : path := base_dir ++ ["data"].
Definition graphs : path := base_dir ++ ["graphs"].

Definition stored_overshoot : state :=
  {| trace := [];
     files :=
       <[data ++ ["profile2_cubic"; "result.json"] := Json overshoot]>
         (<[data ++ ["profile2_cubic"; "cubic_throughput.csv"] :=
              Csv (Tc.throughput_csv
                     [{| Tc.time := 0; Tc.throughput := 34 # 10;
                         Tc.delay := 400; Tc.loss := 0 |}])]> ∅) |}.

(** A host on which exactly one test run fails: vivace under profile1. *)
Definition one_test_fails : host :=
  {| available_congestion_control := Some ["cubic"];
     default_interface := fun _ => Some "eth0";
     popen := fun _ cmd =>
       match cmd with
       | PantheonTest scheme _ _ _ delay_ms _ =>
           if (scheme =? "vivace")%string && (delay_ms =? 10)%Z then Some 1 else Some 0
       | _ => Some 0
       end;
     load_iperf := fun _ _ => None;
     writable := fun _ _ => true |}.

Definition vivace_grid : Pantheon.args :=
  {| Pantheon.schemes := ["vivace"; "cubic"];
     Pantheon.profiles := ["profile1"; "profile2"];
     Pantheon.runtime := 60;
     Pantheon.parallel := 1 |}.

End Examples.

(** ** Observations on series and hosts *)

Module Observe.
Import Sys.

(** [total = 0; for x in xs: total += x] *)
Definition total (xs : list Q) : Q := fold_left Qplus xs 0%Q.

(** A host on which every subprocess can be started. *)
Definition spawns (h : host) : Prop := forall past cmd, is_Some (popen h past cmd).

(** A host on which every file can be opened for writing. *)
Definition writes (h : host) : Prop := forall past p, writable h past p = true.

(** A host on which the default route can always be queried. *)
Definition routes (h : host) : Prop := forall past, is_Some (default_interface h past).

End Observe.

(** ** scripts/analyze_manual_results.py: the RTT comparison chart *)

Module RttChart.
Import Sys PyData.

Local Open Scope string_scope.
Local Open Scope list_scope.

(** [df.empty]: the frame has no rows or no columns. *)
Definition empty (df : csv) : bool :=
  match rows df, columns df with
  | [], _ | _, [] => true
  | _, _ => false
  end.

(** "Calculate 95th percentile if data is available": the entry of
    [p95_rtts] for one scheme; [None] stands for [nan], and a column that
    holds something else than numbers raises. *)
Definition p95_rtt (df : csv) : M (option Q) :=
  if negb (empty df) && bool_decide ("delay" ∈ columns df) then
    match column df "delay" with
    | Some delays => mret (percentile delays 95)
    | None => raise TypeError
    end
  else mret (Some 0%Q).

End RttChart.

(** * Verified properties *)

(** ** Arithmetic of the Python helpers *)

Lemma gt0_true (x : Q) : Py.gt0 x = true <-> (0 < x)%Q.
Proof.
  unfold Py.gt0, Qlt. simpl. rewrite Z.ltb_lt. lia.
Qed.

Lemma gt0_false (x : Q) : Py.gt0 x = false <-> (x <= 0)%Q.
Proof.
  unfold Py.gt0, Qle. simpl. rewrite Z.ltb_ge. lia.
Qed.

Lemma div_defined (a b : Q) : ~ (b == 0)%Q -> Py.div a b = Some (a / b)%Q.
Proof.
  intros Hb. unfold Py.div.
  destruct (Qeq_bool b 0) eqn:E; [|reflexivity].
  apply Qeq_bool_iff in E. contradiction.
Qed.

Lemma div_positive (a b : Q) : (0 < b)%Q -> Py.div a b = Some (a / b)%Q.
Proof.
  intros Hb. apply div_defined. intros E. rewrite E in Hb.
  exact (Qlt_irrefl 0 Hb).
Qed.

Lemma div_by_one (a : Q) : (a / 1 == a)%Q.
Proof. field. Qed.

(** ** The measurement reducer of [tc_experiment.py] *)

Section Reducer.
Import Sys.
Local Open Scope string_scope.
Local Open Scope list_scope.

Variable delay_ms : Z.

(** The loop body never divides by zero, and this is what it computes. *)
Lemma interval_sample_defined (i : interval) :
  Tc.interval_sample delay_ms i =
  Some {| Tc.time := Tc.sum_field i "start";
          Tc.throughput :=
            (if Py.gt0 (Tc.sum_field i "seconds")
             then Tc.sum_field i "bytes" * 8 / (Tc.sum_field i "seconds" * 1000000)
             else 0)%Q;
          Tc.delay := inject_Z (delay_ms * 2);
          Tc.loss :=
            (if Py.gt0 (Tc.sum_field i "bytes")
             then Tc.sum_field i "retransmits" / (Tc.sum_field i "bytes" / 1500)
             else Tc.sum_field i "retransmits" / 1)%Q |}.
Proof.
  unfold Tc.interval_sample.
  set (seconds := Tc.sum_field i "seconds").
  set (bytes := Tc.sum_field i "bytes").
  set (retransmits := Tc.sum_field i "retransmits").
  assert (Hthr :
    (if Py.gt0 seconds then Py.div (bytes * 8) (seconds * 1000000) else Some 0%Q)
    = Some (if Py.gt0 seconds then bytes * 8 / (seconds * 1000000) else 0)%Q).
  { destruct (Py.gt0 seconds) eqn:E; [|reflexivity].
    apply div_positive. apply gt0_true in E.
    apply Qmult_lt_0_compat; [exact E | reflexivity]. }
  rewrite Hthr. simpl.
  destruct (Py.gt0 bytes) eqn:Eb.
  - apply gt0_true in Eb.
    assert (Hp : (0 < bytes / 1500)%Q).
    { apply Qlt_shift_div_l; [reflexivity|]. rewrite Qmult_0_l. exact Eb. }
    rewrite (div_positive _ 1500) by reflexivity. simpl.
    rewrite (proj2 (gt0_true _) Hp).
    rewrite (div_positive _ _ Hp). reflexivity.
  - simpl. reflexivity.
Qed.

Lemma interval_sample_delay (i : interval) (smp : Tc.sample) :
  Tc.interval_sample delay_ms i = Some smp -> Tc.delay smp = inject_Z (delay_ms * 2).
Proof.
  rewrite interval_sample_defined. intros [= <-]. reflexivity.
Qed.

(** The loop appends one sample per interval, in order. *)
Lemma process_intervals_series (ivs : list interval) : forall acc : Tc.totals,
  exists series acc',
    mapM (Tc.interval_sample delay_ms) ivs = Some series
    /\ Tc.process_intervals delay_ms ivs acc = Some acc'
    /\ Tc.throughput_data acc' = Tc.throughput_data acc ++ series.
Proof.
  induction ivs as [|i ivs IH]; intros acc.
  - exists [], acc. simpl. rewrite app_nil_r. auto.
  - simpl. unfold Tc.process_interval.
    rewrite interval_sample_defined. simpl.
    match goal with |- context [Tc.process_intervals _ _ ?a] =>
      destruct (IH a) as (series & acc' & Hm & Hp & Hd) end.
    rewrite Hm. simpl. eexists _, acc'. split; [reflexivity|].
    split; [exact Hp|]. rewrite Hd. simpl. rewrite <- app_assoc. reflexivity.
Qed.

(** No input makes the reducer raise [ZeroDivisionError]; the series holds
    the sample of each interval and the summary carries its five fields. *)
Lemma reduce_defined (cc_algorithm profile : string) (ivs : list interval) :
  exists series result,
    Tc.reduce cc_algorithm profile delay_ms ivs = Some (series, result)
    /\ mapM (Tc.interval_sample delay_ms) ivs = Some series
    /\ Sys.cc_algorithm result = Some cc_algorithm
    /\ Sys.profile result = Some profile
    /\ is_Some (Sys.avg_throughput result)
    /\ Sys.avg_delay result = Some (inject_Z (delay_ms * 2))
    /\ is_Some (Sys.loss_rate result).
Proof.
  unfold Tc.reduce.
  destruct (process_intervals_series ivs Tc.no_totals) as (series & acc & Hm & Hp & Hd).
  rewrite Hp. simpl.
  assert (Havg : exists a,
    (if (0 <? Z.of_nat (length ivs))%Z
     then Py.div (Tc.total_throughput acc) (inject_Z (Z.of_nat (length ivs)))
     else Some 0%Q) = Some a).
  { destruct (0 <? Z.of_nat (length ivs))%Z eqn:E; [|eauto].
    apply Z.ltb_lt in E. rewrite div_positive; [eauto|].
    unfold Qlt. simpl. lia. }
  destruct Havg as [a ->]. simpl.
  assert (Hpk : exists p, (0 < p)%Q /\
    (if Py.gt0 (Tc.total_bytes acc)
     then Py.div (Tc.total_bytes acc) 1500 else Some 1%Q) = Some p).
  { destruct (Py.gt0 (Tc.total_bytes acc)) eqn:E.
    - apply gt0_true in E. rewrite div_positive by reflexivity.
      eexists; split; [|reflexivity].
      apply Qlt_shift_div_l; [reflexivity|]. rewrite Qmult_0_l. exact E.
    - exists 1%Q. split; reflexivity. }
  destruct Hpk as (p & Hp0 & ->). simpl.
  rewrite (proj2 (gt0_true p) Hp0), (div_positive _ _ Hp0). simpl.
  eexists _, _. split; [reflexivity|]. simpl in Hd. subst.
  repeat split; eauto.
Qed.

End Reducer.

Section ReducerTotality.
Import Sys.
Local Open Scope list_scope.

(** X4: the reducer is total: for every capture it returns, without a
    division by zero, one sample per interval and a summary. *)
Theorem reducer_never_raises (cc_algorithm profile : string) (delay_ms : Z)
    (ivs : list interval) :
  exists series result,
    Tc.reduce cc_algorithm profile delay_ms ivs = Some (series, result)
    /\ length series = length ivs
    /\ is_Some (avg_throughput result)
    /\ is_Some (avg_delay result)
    /\ is_Some (loss_rate result).
Proof.
  destruct (reduce_defined delay_ms cc_algorithm profile ivs)
    as (series & result & Hr & Hm & _ & _ & Ht & Hd & Hl).
  exists series, result. split; [exact Hr|].
  split; [|split; [exact Ht|split; [rewrite Hd; eauto | exact Hl]]].
  apply mapM_Some in Hm. symmetry. exact (Forall2_length _ _ _ Hm).
Qed.

End ReducerTotality.

Section ReducerClaims.
Import Sys.
Local Open Scope string_scope.
Local Open Scope list_scope.

(** C6: every raw interval of the capture becomes a sample whose throughput
    in Mbps is bytes * 8 / (seconds * 1e6) when seconds > 0 and 0 when
    seconds = 0; one second with 125000 bytes gives 1 Mbps. *)
Theorem C6_interval_throughput (cc_algorithm profile : string) (delay_ms : Z)
    (ivs : list interval) (n : nat) (i : interval) :
  ivs !! n = Some i ->
  exists series result smp,
    Tc.reduce cc_algorithm profile delay_ms ivs = Some (series, result)
    /\ series !! n = Some smp
    /\ ((0 < Tc.sum_field i "seconds")%Q ->
        (Tc.throughput smp ==
         Tc.sum_field i "bytes" * 8 / (Tc.sum_field i "seconds" * 1000000))%Q)
    /\ ((Tc.sum_field i "seconds" == 0)%Q -> (Tc.throughput smp == 0)%Q)
    /\ ((Tc.sum_field i "seconds" == 1)%Q -> (Tc.sum_field i "bytes" == 125000)%Q ->
        (Tc.throughput smp == 1)%Q).
Proof.
  intros Hi.
  destruct (reduce_defined delay_ms cc_algorithm profile ivs)
    as (series & result & Hr & Hm & _).
  apply mapM_Some in Hm.
  destruct (Forall2_lookup_l _ _ _ _ _ Hm Hi) as (smp & Hs & Hsmp).
  exists series, result, smp. split; [exact Hr|]. split; [exact Hs|].
  rewrite interval_sample_defined in Hsmp. injection Hsmp as <-. simpl.
  split; [|split].
  - intros Hpos. rewrite (proj2 (gt0_true _) Hpos). reflexivity.
  - intros Hz.
    assert (Hle : (Tc.sum_field i "seconds" <= 0)%Q) by (rewrite Hz; apply Qle_refl).
    rewrite (proj2 (gt0_false _) Hle). reflexivity.
  - intros H1 Hb.
    assert (Hpos : (0 < Tc.sum_field i "seconds")%Q) by (rewrite H1; reflexivity).
    rewrite (proj2 (gt0_true _) Hpos), H1, Hb. reflexivity.
Qed.

(** The theorem at the example of the specification: one second, 125000 bytes. *)
Lemma C6_interval_throughput_witness :
  exists series result smp,
    Tc.reduce "cubic" "profile1" 10 [Examples.capture 1 125000 0] = Some (series, result)
    /\ series !! 0%nat = Some smp
    /\ (Tc.throughput smp == 1)%Q.
Proof.
  destruct (C6_interval_throughput "cubic" "profile1" 10
              [Examples.capture 1 125000 0] 0 (Examples.capture 1 125000 0) eq_refl)
    as (series & result & smp & Hr & Hs & _ & _ & H1).
  exists series, result, smp. split; [exact Hr|]. split; [exact Hs|].
  apply H1; vm_compute; reflexivity.
Defined.

(** C5: on an interval that carried no bytes and three retransmits the
    loop body reports a loss of 3, not 0. *)
Theorem C5_stalled_interval_loss :
  exists smp,
    Tc.interval_sample 10 Examples.stalled_interval = Some smp
    /\ (Tc.sum_field Examples.stalled_interval "bytes" == 0)%Q
    /\ (Tc.loss smp == 3)%Q
    /\ ~ (Tc.loss smp == 0)%Q.
Proof.
  eexists. split; [vm_compute; reflexivity|].
  split; [vm_compute; reflexivity|].
  split; [vm_compute; reflexivity|].
  vm_compute. discriminate.
Qed.

(** X5: the loss of a sample: retransmits over bytes/1500 when bytes were sent,
    and the retransmit count itself otherwise (one packet is assumed). *)
Lemma interval_loss (delay_ms : Z) (i : interval) :
  exists smp,
    Tc.interval_sample delay_ms i = Some smp
    /\ ((0 < Tc.sum_field i "bytes")%Q ->
        (Tc.loss smp ==
         Tc.sum_field i "retransmits" / (Tc.sum_field i "bytes" / 1500))%Q)
    /\ ((Tc.sum_field i "bytes" <= 0)%Q ->
        (Tc.loss smp == Tc.sum_field i "retransmits")%Q).
Proof.
  eexists. split; [apply interval_sample_defined|]. simpl. split.
  - intros Hpos. rewrite (proj2 (gt0_true _) Hpos). reflexivity.
  - intros Hle. rewrite (proj2 (gt0_false _) Hle). apply div_by_one.
Qed.

(** C4, the claim as stated fails: the summary of an empty capture under
    profile1 has an average delay of 20 ms. *)
Lemma C4_empty_capture_delay_not_zero :
  exists series result q,
    Tc.reduce "cubic" "profile1" 10 [] = Some (series, result)
    /\ Sys.avg_delay result = Some q
    /\ ~ (q == 0)%Q.
Proof.
  eexists _, _, _. split; [reflexivity|]. split; [reflexivity|].
  vm_compute. discriminate.
Qed.

(** C4, amended: a capture with zero intervals reduces, without error, to an
    empty series and a summary whose average throughput and loss rate are 0
    and whose average delay is twice the configured delay. *)
Theorem C4_empty_capture_summary (cc_algorithm profile : string) (delay_ms : Z) :
  Tc.reduce cc_algorithm profile delay_ms [] =
  Some ([], {| Sys.cc_algorithm := Some cc_algorithm;
               Sys.profile := Some profile;
               Sys.avg_throughput := Some 0%Q;
               Sys.avg_delay := Some (inject_Z (2 * delay_ms));
               Sys.loss_rate := Some 0%Q |}).
Proof.
  rewrite (Z.mul_comm 2 delay_ms). reflexivity.
Qed.

(** C10: the delay of every sample and the summary's average delay are
    twice the profile's configured delay whatever the capture holds; two
    captures with the same number of intervals give the same delays. *)
Theorem C10_delay_from_profile_only (cc_algorithm profile : string)
    (delay_ms bandwidth_mbps queue_size_bytes : Z) (ivs1 ivs2 : list interval) :
  Tc.profile_parameters profile = Some (delay_ms, bandwidth_mbps, queue_size_bytes) ->
  length ivs1 = length ivs2 ->
  exists series1 result1 series2 result2,
    Tc.reduce cc_algorithm profile delay_ms ivs1 = Some (series1, result1)
    /\ Tc.reduce cc_algorithm profile delay_ms ivs2 = Some (series2, result2)
    /\ map Tc.delay series1 = replicate (length ivs1) (inject_Z (2 * delay_ms))
    /\ Sys.avg_delay result1 = Some (inject_Z (2 * delay_ms))
    /\ map Tc.delay series2 = map Tc.delay series1
    /\ Sys.avg_delay result2 = Sys.avg_delay result1.
Proof.
  intros _ Hlen.
  assert (Hdelays : forall ivs series,
    mapM (Tc.interval_sample delay_ms) ivs = Some series ->
    map Tc.delay series = replicate (length ivs) (inject_Z (2 * delay_ms))).
  { intros ivs series Hm. apply mapM_Some in Hm.
    induction Hm as [|i smp ivs series Hi _ IH]; [reflexivity|].
    simpl. rewrite IH, (interval_sample_delay _ _ _ Hi), (Z.mul_comm 2). reflexivity. }
  destruct (reduce_defined delay_ms cc_algorithm profile ivs1)
    as (s1 & r1 & Hr1 & Hm1 & _ & _ & _ & Hd1 & _).
  destruct (reduce_defined delay_ms cc_algorithm profile ivs2)
    as (s2 & r2 & Hr2 & Hm2 & _ & _ & _ & Hd2 & _).
  exists s1, r1, s2, r2.
  rewrite (Hdelays _ _ Hm1), (Hdelays _ _ Hm2), Hd1, Hd2, Hlen, (Z.mul_comm 2).
  repeat split; assumption.
Qed.

(** Two captures of one interval each under profile2, one of them with a
    measured round-trip time in the raw record: both give a delay of 400. *)
Lemma C10_delay_from_profile_only_witness :
  exists series1 result1 series2 result2,
    Tc.reduce "bbr" "profile2" 200 [Examples.capture 1 125000 0] = Some (series1, result1)
    /\ Tc.reduce "bbr" "profile2" 200 [Examples.capture_with_rtt 2 0 7 35] =
       Some (series2, result2)
    /\ map Tc.delay series1 = [400%Q]
    /\ Sys.avg_delay result1 = Some 400%Q
    /\ map Tc.delay series2 = map Tc.delay series1
    /\ Sys.avg_delay result2 = Sys.avg_delay result1.
Proof.
  exact (C10_delay_from_profile_only "bbr" "profile2" 200 1 25000
           [Examples.capture 1 125000 0] [Examples.capture_with_rtt 2 0 7 35]
           eq_refl eq_refl).
Defined.

End ReducerClaims.

(** ** The profile catalogue *)

Section Profiles.
Local Open Scope string_scope.

(** Truncation loses less than one byte of a non-negative product. *)
Lemma queue_size_tolerance (bandwidth_mbps delay_ms : Z) :
  0 <= bandwidth_mbps -> 0 <= delay_ms ->
  (inject_Z (Tc.queue_size bandwidth_mbps delay_ms)
     <= inject_Z bandwidth_mbps * 1000000 * inject_Z delay_ms / 8 / 1000)%Q
  /\ (inject_Z bandwidth_mbps * 1000000 * inject_Z delay_ms / 8 / 1000
      < inject_Z (Tc.queue_size bandwidth_mbps delay_ms) + 1)%Q.
Proof.
  intros Hb Hd. unfold Tc.queue_size, Py.int.
  assert (Hn : 0 <= bandwidth_mbps * 1000000 * delay_ms) by nia.
  set (n := bandwidth_mbps * 1000000 * delay_ms) in *.
  assert (Hq : (inject_Z bandwidth_mbps * 1000000 * inject_Z delay_ms / 8 / 1000
                == n # 8000)%Q).
  { unfold n, Qeq, Qdiv, Qmult, Qinv, inject_Z. simpl. lia. }
  rewrite Hq.
  replace (Qnum (inject_Z n / 8 / 1000)%Q) with (n * 1 * 1) by reflexivity.
  replace (Zpos (Qden (inject_Z n / 8 / 1000)%Q)) with 8000 by reflexivity.
  rewrite Z.quot_div_nonneg by lia.
  pose proof (Z.div_mod (n * 1 * 1) 8000 ltac:(lia)) as Hdm.
  pose proof (Z.mod_pos_bound (n * 1 * 1) 8000 ltac:(lia)) as Hm.
  unfold Qle, Qlt, Qplus, inject_Z. simpl. lia.
Qed.

(** C9: in both runner scripts the queue size of every profile is the
    bandwidth-delay product bandwidth_mbps * 1e6 * delay_ms / 8 / 1000 in
    bytes: 62500 for profile1 (50 Mbps, 10 ms) and 25000 for profile2
    (1 Mbps, 200 ms); for any other non-negative bandwidth and delay the
    truncation to an integer loses less than one byte. *)
Theorem C9_queue_size_is_bdp :
  (forall profile delay_ms bandwidth_mbps queue_size_bytes,
     Tc.profile_parameters profile = Some (delay_ms, bandwidth_mbps, queue_size_bytes) ->
     (inject_Z queue_size_bytes ==
      inject_Z bandwidth_mbps * 1000000 * inject_Z delay_ms / 8 / 1000)%Q)
  /\ (forall profile delay_ms bandwidth_mbps queue_size_bytes trace_file,
        Pantheon.profile_parameters profile =
          Some (delay_ms, bandwidth_mbps, queue_size_bytes, trace_file) ->
        (inject_Z queue_size_bytes ==
         inject_Z bandwidth_mbps * 1000000 * inject_Z delay_ms / 8 / 1000)%Q)
  /\ Tc.profile_parameters "profile1" = Some (10, 50, 62500)
  /\ Tc.profile_parameters "profile2" = Some (200, 1, 25000)
  /\ (exists t, Pantheon.profile_parameters "profile1" = Some (10, 50, 62500, t))
  /\ (exists t, Pantheon.profile_parameters "profile2" = Some (200, 1, 25000, t))
  /\ (forall bandwidth_mbps delay_ms, 0 <= bandwidth_mbps -> 0 <= delay_ms ->
      (inject_Z (Tc.queue_size bandwidth_mbps delay_ms)
         <= inject_Z bandwidth_mbps * 1000000 * inject_Z delay_ms / 8 / 1000
         < inject_Z (Tc.queue_size bandwidth_mbps delay_ms) + 1)%Q).
Proof.
  split; [|split].
  - intros profile d b q. unfold Tc.profile_parameters.
    destruct (profile =? "profile1")%string; [intros [= <- <- <-]; reflexivity|].
    destruct (profile =? "profile2")%string; [intros [= <- <- <-]; reflexivity|].
    discriminate.
  - intros profile d b q t. unfold Pantheon.profile_parameters.
    destruct (profile =? "profile1")%string; [intros [= <- <- <- _]; reflexivity|].
    destruct (profile =? "profile2")%string; [intros [= <- <- <- _]; reflexivity|].
    discriminate.
  - split; [reflexivity|]. split; [reflexivity|].
    split; [eexists; reflexivity|]. split; [eexists; reflexivity|].
    apply queue_size_tolerance.
Qed.

End Profiles.

(** ** Counting events through the effect monad *)

Section Counting.
Import Sys Trace.
Local Open Scope string_scope.
Local Open Scope list_scope.

Variable p : event -> bool.

Lemma count_snoc (t : list event) (e : event) :
  count p (t ++ [e]) = (count p t + if p e then 1 else 0)%nat.
Proof.
  unfold count. rewrite List.filter_app, length_app. simpl.
  destruct (p e); reflexivity.
Qed.

Lemma bind_emit {A} (e : event) (k : unit -> M A) (s : state) :
  (emit e ≫= k) s = k tt {| trace := trace s ++ [e]; files := files s |}.
Proof. reflexivity. Qed.

Lemma bind_history {A} (k : list event -> M A) (s : state) :
  (history ≫= k) s = k (trace s) s.
Proof. reflexivity. Qed.

Lemma adds_ret {A} (a : A) : adds p 0 (mret a : M A).
Proof. intros s. simpl. lia. Qed.

Lemma adds_raise {A} (e : exn) : adds p 0 (raise e : M A).
Proof. intros s. simpl. lia. Qed.

Lemma adds_history : adds p 0 history.
Proof. intros s. simpl. lia. Qed.

Lemma adds_write_file (h : host) (f : path) (c : file) : adds p 0 (write_file h f c).
Proof.
  intros s. unfold write_file. destruct (writable h (trace s) f); simpl; lia.
Qed.

(** Once [m] has added its [n] events, a continuation that adds none
    leaves the count alone, also when [m] raises and skips it. *)
Lemma adds_redirect (h : host) (f : path) : adds p 0 (redirect h f).
Proof.
  intros s. unfold redirect.
  destruct (writable h (trace s) f); simpl; lia.
Qed.

Lemma adds_bind {A B} (n : nat) (m : M A) (k : A -> M B) :
  adds p n m -> (forall a, adds p 0 (k a)) -> adds p n (m ≫= k).
Proof.
  intros Hm Hk s. specialize (Hm s).
  unfold mbind, M_bind, bind. destruct (m s) as [s1 [a|e]]; simpl in *.
  - rewrite (Hk a s1), Hm. lia.
  - exact Hm.
Qed.

Lemma adds_emit_miss {A} (n : nat) (e : event) (k : unit -> M A) :
  p e = false -> adds p n (k tt) -> adds p n (emit e ≫= k).
Proof.
  intros He Hk s. rewrite bind_emit, Hk. simpl. rewrite count_snoc, He. lia.
Qed.

Lemma adds_emit_hit {A} (n : nat) (e : event) (k : unit -> M A) :
  p e = true -> adds p n (k tt) -> adds p (S n) (emit e ≫= k).
Proof.
  intros He Hk s. rewrite bind_emit, Hk. simpl. rewrite count_snoc, He. lia.
Qed.

Lemma adds_try_except {A} (n : nat) (body : M A) (handler : exn -> M A) :
  adds p n body -> (forall e, adds p 0 (handler e)) -> adds p n (try_except body handler).
Proof.
  intros Hb Hh s. specialize (Hb s).
  unfold try_except. destruct (body s) as [s1 [a|e]]; simpl in *.
  - exact Hb.
  - rewrite (Hh e s1), Hb. lia.
Qed.

(** The [finally] block runs after the body on every path. *)
Lemma adds_try_finally {A} (n k : nat) (body : M A) (final : M unit) :
  adds p n body -> adds p k final -> adds p (n + k) (try_finally body final).
Proof.
  intros Hb Hf s. specialize (Hb s).
  unfold try_finally. destruct (body s) as [s1 r]. specialize (Hf s1).
  destruct (final s1) as [s2 [u|e]]; simpl in *; lia.
Qed.

Lemma adds_run_command (h : host) (cmd : command) (log_file : option path) :
  p (Spawn cmd) = false -> adds p 0 (run_command h cmd log_file).
Proof.
  intros Hc. unfold run_command.
  apply adds_bind; [destruct log_file; [apply adds_write_file | apply adds_ret]|].
  intros _. apply adds_bind; [apply adds_history|]. intros past.
  apply adds_emit_miss; [exact Hc|].
  destruct (popen h past cmd); [apply adds_ret | apply adds_raise].
Qed.

End Counting.

(** ** The trial runner of [tc_experiment.py] *)

Section TrialRunner.
Import Sys Trace.
Local Open Scope string_scope.
Local Open Scope list_scope.

Variable h : host.

Lemma setup_tc_counts (interface : string) (b d q : Z) :
  adds is_setup 1 (Tc.setup_tc h interface b d q)
  /\ adds is_cleanup 0 (Tc.setup_tc h interface b d q).
Proof.
  unfold Tc.setup_tc. split.
  - apply adds_emit_hit; [reflexivity|].
    repeat (apply adds_bind; [apply adds_run_command; reflexivity|]; intros _).
    apply adds_ret.
  - apply adds_emit_miss; [reflexivity|].
    repeat (apply adds_bind; [apply adds_run_command; reflexivity|]; intros _).
    apply adds_ret.
Qed.

Lemma cleanup_tc_counts (interface : string) :
  adds is_cleanup 1 (Tc.cleanup_tc h interface)
  /\ adds is_setup 0 (Tc.cleanup_tc h interface).
Proof.
  unfold Tc.cleanup_tc. split.
  - apply adds_emit_hit; [reflexivity|].
    apply adds_bind; [apply adds_run_command; reflexivity|]. intros _. apply adds_ret.
  - apply adds_emit_miss; [reflexivity|].
    apply adds_bind; [apply adds_run_command; reflexivity|]. intros _. apply adds_ret.
Qed.

(** The [try / except / finally] statement of [run_experiment]: one call of
    [setup_tc] and one call of [cleanup_tc], on every path through it. *)
Lemma guarded_block_counts (interface : string) (b d q : Z)
    (rest : M Z) (p : event -> bool) :
  (p = is_setup \/ p = is_cleanup) ->
  adds p 0 rest ->
  adds p 1
    (try_finally
       (try_except (Tc.setup_tc h interface b d q;; rest) (fun e => mret 1))
       (Tc.cleanup_tc h interface;; run_command h KillallIperf3 None;; mret tt)).
Proof.
  intros Hp Hrest.
  destruct (setup_tc_counts interface b d q) as [Hs1 Hs0].
  destruct (cleanup_tc_counts interface) as [Hc1 Hc0].
  assert (Hkill : forall n (m : M unit), adds p n m ->
            adds p n (m;; run_command h KillallIperf3 None;; mret tt)).
  { intros n m Hm. apply adds_bind; [exact Hm|]. intros _.
    apply adds_bind; [|intros _; apply adds_ret].
    apply adds_run_command. destruct Hp as [-> | ->]; reflexivity. }
  destruct Hp as [-> | ->].
  - change 1%nat with (1 + 0)%nat. apply adds_try_finally.
    + apply adds_try_except; [|intros; apply adds_ret].
      apply adds_bind; [exact Hs1|]. intros _. exact Hrest.
    + apply Hkill, Hc0.
  - change 1%nat with (0 + 1)%nat. apply adds_try_finally.
    + apply adds_try_except; [|intros; apply adds_ret].
      apply adds_bind; [exact Hs0|]. intros _. exact Hrest.
    + apply Hkill, Hc1.
Qed.

End TrialRunner.

Section TrialRunnerClaims.
Import Sys Trace.
Local Open Scope string_scope.
Local Open Scope list_scope.

Lemma bind_run {A B} (m : M A) (k : A -> M B) (s : state) :
  (m ≫= k) s =
  match m s with
  | (s1, Return a) => k a s1
  | (s1, Raise e) => (s1, Raise e)
  end.
Proof. reflexivity. Qed.

Lemma ret_run {A} (a : A) (s : state) : (mret a : M A) s = (s, Return a).
Proof. reflexivity. Qed.

Lemma raise_run {A} (e : exn) (s : state) : (raise e : M A) s = (s, Raise e).
Proof. reflexivity. Qed.

Lemma run_command_plain (h : host) (cmd : command) (s : state) :
  run_command h cmd None s =
  ({| trace := trace s ++ [Spawn cmd]; files := files s |},
   match popen h (trace s) cmd with
   | Some returncode => Return returncode
   | None => Raise OSError
   end).
Proof.
  unfold run_command, mbind, M_bind, bind, ret, history, emit, raise. simpl.
  destruct (popen h (trace s) cmd); reflexivity.
Qed.

(** Discharges [adds p 0 m] for straight-line code without events of kind [p]. *)
Ltac silent :=
  repeat first
    [ apply adds_ret
    | apply adds_raise
    | apply adds_history
    | apply adds_write_file
    | apply adds_redirect
    | apply adds_run_command; reflexivity
    | apply adds_bind; [|intros ?]
    | match goal with
      | |- adds _ _ (match ?x with _ => _ end) => destruct x
      end ].

(** C1, the claim as stated fails: a trial with an unknown profile ends
    (with result 1) without any call of [cleanup_tc]. *)
Lemma C1_unknown_profile_no_teardown :
  Tc.run_experiment Examples.healthy "cubic" "profile3" 60 Examples.fresh =
    ({| trace := [Call (run_experiment_call "cubic" "profile3" 60)]; files := ∅ |},
     Return 1)
  /\ teardowns (trace (Tc.run_experiment Examples.healthy "cubic" "profile3" 60
                         Examples.fresh).1) = 0%nat.
Proof. split; reflexivity. Qed.

(** C1, amended: in every trial [cleanup_tc] is called exactly as often as
    [setup_tc], and at most once.  Both are called exactly once when the
    profile is known, a default interface is found and the congestion
    control command is started, whatever happens afterwards in configure,
    capture, reduction or persistence; neither is called for an unknown
    profile. *)
Theorem C1_teardown_matches_setup (h : host) (s : state) (cc profile : string)
    (runtime : Z) :
  let s' := (Tc.run_experiment h cc profile runtime s).1 in
  let past := trace s ++ [Call (run_experiment_call cc profile runtime)] in
  exists n : nat,
    (n <= 1)%nat
    /\ teardowns (trace s') = (teardowns (trace s) + n)%nat
    /\ setups (trace s') = (setups (trace s) + n)%nat
    /\ (forall interface,
          is_Some (Tc.profile_parameters profile) ->
          default_interface h past = Some interface -> interface <> "" ->
          is_Some (popen h past (SysctlCongestionControl cc)) ->
          n = 1%nat)
    /\ (Tc.profile_parameters profile = None -> n = 0%nat).
Proof.
  intros s' past. subst s'.
  assert (Hpast : forall p, p (Call (run_experiment_call cc profile runtime)) = false ->
            count p past = count p (trace s)).
  { intros p Hp. unfold past. rewrite count_snoc, Hp. lia. }
  assert (Hzero : forall (r : outcome Z) (post t : list event),
    t = past ++ post ->
    forallb (fun e => negb (is_cleanup e || is_setup e)) post = true ->
    (forall interface,
       is_Some (Tc.profile_parameters profile) ->
       default_interface h past = Some interface -> interface <> "" ->
       is_Some (popen h past (SysctlCongestionControl cc)) -> False) ->
    let s1 := ({| trace := t; files := files s |}, r).1 in
    exists n : nat,
      (n <= 1)%nat
      /\ teardowns (trace s1) = (teardowns (trace s) + n)%nat
      /\ setups (trace s1) = (setups (trace s) + n)%nat
      /\ (forall interface,
            is_Some (Tc.profile_parameters profile) ->
            default_interface h past = Some interface -> interface <> "" ->
            is_Some (popen h past (SysctlCongestionControl cc)) ->
            n = 1%nat)
      /\ (Tc.profile_parameters profile = None -> n = 0%nat)).
  { intros r post t -> Hpost Hcond. exists 0%nat. simpl. unfold teardowns, setups, count.
    assert (Hf : forall p, (forall e, p e = true -> (is_cleanup e || is_setup e) = true) ->
              length (List.filter p (past ++ post)) = length (List.filter p (trace s))).
    { intros p Himp. rewrite List.filter_app, length_app.
      fold (count p past). rewrite Hpast.
      - assert (Hnil : List.filter p post = []); [|rewrite Hnil; simpl; unfold count; lia].
        clear -Hpost Himp. induction post as [|e post IH]; [reflexivity|].
        simpl in *. apply andb_prop in Hpost as [He Hpost].
        destruct (p e) eqn:Hpe; [|auto].
        rewrite (Himp e Hpe) in He. discriminate.
      - destruct (p _) eqn:Hpe; [|reflexivity]. apply Himp in Hpe. discriminate. }
    rewrite !Hf.
    + repeat split; try lia. intros i H1 H2 H3 H4. destruct (Hcond i H1 H2 H3 H4).
    + intros e He. rewrite He. apply orb_true_r.
    + intros e He. rewrite He. reflexivity. }
  unfold Tc.run_experiment. rewrite bind_emit. fold past.
  destruct (Tc.profile_parameters profile) as [[[d b] q]|] eqn:Hp.
  2:{ rewrite ret_run.
      apply (Hzero _ []); [symmetry; apply app_nil_r|reflexivity|]. intros ? [? [=]]. }
  unfold Tc.get_default_interface. rewrite bind_run, bind_history. simpl trace.
  destruct (default_interface h past) as [interface|] eqn:Hi.
  2:{ rewrite raise_run.
      apply (Hzero _ []); [symmetry; apply app_nil_r|reflexivity|]. intros ? _ [=]. }
  rewrite ret_run.
  destruct (interface =? "")%string eqn:He.
  { rewrite ret_run.
    apply (Hzero _ []); [symmetry; apply app_nil_r|reflexivity|].
    intros i _ [= <-] Hne. apply String.eqb_eq in He. contradiction. }
  rewrite bind_run, run_command_plain. simpl trace.
  destruct (popen h past (SysctlCongestionControl cc)) as [rc|] eqn:Hs.
  2:{ apply (Hzero _ [Spawn (SysctlCongestionControl cc)]); [reflexivity|reflexivity|].
      intros ? _ _ _ [? [=]]. }
  exists 1%nat.
  set (s2 := {| trace := past ++ [Spawn (SysctlCongestionControl cc)]; files := files s |}).
  assert (Hs2 : forall p, p (Call (run_experiment_call cc profile runtime)) = false ->
            p (Spawn (SysctlCongestionControl cc)) = false ->
            count p (trace s2) = count p (trace s)).
  { intros p H1 H2. simpl. rewrite count_snoc, H2, Hpast by exact H1. lia. }
  split; [lia|]. unfold teardowns, setups.
  split; [|split; [|split; [reflexivity|discriminate]]].
  - rewrite <- (Hs2 is_cleanup) by reflexivity.
    apply (guarded_block_counts h); [right; reflexivity|].
    unfold Tc.load_iperf_result. silent.
  - rewrite <- (Hs2 is_setup) by reflexivity.
    apply (guarded_block_counts h); [left; reflexivity|].
    unfold Tc.load_iperf_result. silent.
Qed.

End TrialRunnerClaims.

Section TrialRunnerWitness.
Import Sys Trace.
Local Open Scope string_scope.
Local Open Scope list_scope.

(** The theorem on a trial whose capture is lost: the trial fails with
    result 1 after one [setup_tc] and one [cleanup_tc]. *)
Lemma C1_teardown_matches_setup_witness :
  let run := Tc.run_experiment Examples.one_capture_lost "cubic" "profile2" 60
               Examples.fresh in
  run.2 = Return 1
  /\ teardowns (trace run.1) = 1%nat
  /\ setups (trace run.1) = 1%nat.
Proof.
  cbv zeta. split; [vm_compute; reflexivity|].
  destruct (C1_teardown_matches_setup Examples.one_capture_lost Examples.fresh
              "cubic" "profile2" 60) as (n & _ & Ht & Hs & Hone & _).
  assert (Hn : n = 1%nat).
  { apply (Hone "eth0"); [eexists; reflexivity | reflexivity | discriminate
                         | eexists; reflexivity]. }
  rewrite Ht, Hs, Hn. split; reflexivity.
Defined.

End TrialRunnerWitness.

(** ** The trial runner of [run_experiments.py] *)

Section PantheonRunner.
Import Sys Trace.
Local Open Scope string_scope.
Local Open Scope list_scope.

Lemma run_command_logged (h : host) (cmd : command) (log_file : path) (s : state) :
  run_command h cmd (Some log_file) s =
  if writable h (trace s) log_file then
    ({| trace := trace s ++ [Spawn cmd]; files := <[log_file := Log]> (files s) |},
     match popen h (trace s) cmd with
     | Some returncode => Return returncode
     | None => Raise OSError
     end)
  else (s, Raise IOError).
Proof.
  unfold run_command, write_file, mbind, M_bind, bind, ret, history, emit, raise. simpl.
  destruct (writable h (trace s) log_file); [|reflexivity]. simpl.
  destruct (popen h (trace s) cmd); reflexivity.
Qed.




End PantheonRunner.

(** ** The batch drivers *)

Section Batch.
Import Sys Trace.
Local Open Scope string_scope.
Local Open Scope list_scope.

(** C2: [tc_experiment.py] run over cubic x {profile1, profile3}: the
    second trial fails with result 1, yet [main] returns 0 and the script
    exits with status 0. *)
Theorem C2_tc_exit_status_ignores_failed_trial :
  let first := Tc.run_experiment Examples.healthy "cubic" "profile1" 60 Examples.fresh in
  let second := Tc.run_experiment Examples.healthy "cubic" "profile3" 60 first.1 in
  let batch := Tc.main Examples.healthy Examples.one_bad_profile Examples.fresh in
  first.2 = Return 0
  /\ second.2 = Return 1
  /\ batch.1 = second.1
  /\ batch.2 = Return 0
  /\ Tc.exit_status Examples.healthy Examples.one_bad_profile Examples.fresh = (batch.1, 0).
Proof.
  cbv zeta. repeat split; vm_compute; reflexivity.
Qed.

(** C8: [tc_experiment.py] run over {cubic, bbr} x {profile1, profile2}
    when the capture of cubic under profile2 is lost: all four trials are
    started, that one trial ends with result 1, the three others leave
    their [result.json], and [main] still returns 0 for the batch. *)
Theorem C8_tc_batch_success_despite_failed_trial :
  let batch := Tc.main Examples.one_capture_lost Examples.two_by_two Examples.fresh in
  let stored cc profile := files batch.1 !! (Tc.data_dir profile cc ++ ["result.json"]) in
  trials (trace batch.1) =
    [("cubic", "profile1"); ("cubic", "profile2"); ("bbr", "profile1"); ("bbr", "profile2")]
  /\ (Tc.run_experiment Examples.one_capture_lost "cubic" "profile2" 60 Examples.fresh).2
     = Return 1
  /\ is_Some (stored "cubic" "profile1")
  /\ stored "cubic" "profile2" = None
  /\ is_Some (stored "bbr" "profile1")
  /\ is_Some (stored "bbr" "profile2")
  /\ batch.2 = Return 0
  /\ (Tc.exit_status Examples.one_capture_lost Examples.two_by_two Examples.fresh).2 = 0.
Proof.
  cbv zeta.
  split; [vm_compute; reflexivity|].
  split; [vm_compute; reflexivity|].
  split; [vm_compute; eexists; reflexivity|].
  split; [vm_compute; reflexivity|].
  split; [vm_compute; eexists; reflexivity|].
  split; [vm_compute; eexists; reflexivity|].
  split; vm_compute; reflexivity.
Qed.

End Batch.

(** ** Strings and dictionaries *)

Section PyDataFacts.
Import Sys PyData.
Local Open Scope string_scope.
Local Open Scope list_scope.

Lemma last_char_append (a b : string) :
  b <> EmptyString -> last_char (a +:+ b) = last_char b.
Proof.
  intros Hb. induction a as [|c a IH]; [reflexivity|].
  simpl. rewrite IH. destruct (a +:+ b) eqn:E; [|reflexivity].
  destruct a; simpl in E; [contradiction | discriminate].
Qed.

Lemma append_inj_l (a b c : string) : a +:+ c = b +:+ c -> a = b.
Proof.
  assert (Hlen : forall x y : string,
            String.length (x +:+ y) = (String.length x + String.length y)%nat).
  { induction x as [|ch x IH]; intros y; simpl; [reflexivity | rewrite IH; reflexivity]. }
  revert b. induction a as [|x a IH]; intros [|y b] H.
  - reflexivity.
  - apply (f_equal String.length) in H. rewrite !Hlen in H. simpl in H. lia.
  - apply (f_equal String.length) in H. rewrite !Hlen in H. simpl in H. lia.
  - simpl in H. injection H as -> H. f_equal. apply IH, H.
Qed.

(** [split('_', 1)] undoes joining with an underscore. *)
Lemma split_once_join (d profile scheme : string) :
  split_once d = Some (profile, scheme) -> d = profile +:+ "_" +:+ scheme.
Proof.
  revert profile. induction d as [|c d IH]; intros profile; simpl; [discriminate|].
  destruct (Ascii.eqb c "_") eqn:E.
  - apply Ascii.eqb_eq in E. subst c. intros [= <- <-]. reflexivity.
  - destruct (split_once d) as [[a b]|]; [|discriminate].
    intros [= <- <-]. change (String c d = String c (a +:+ "_" +:+ b)).
    f_equal. apply IH. reflexivity.
Qed.

Lemma below_app (dir rest : path) : below dir (dir ++ rest) = Some rest.
Proof.
  induction dir as [|d dir IH]; [reflexivity|].
  simpl. rewrite String.eqb_refl. exact IH.
Qed.

Lemma dict_get_set_eq {V : Type} (k : string) (v : V) (d : dict V) :
  dict_get k (dict_set k v d) = Some v.
Proof.
  induction d as [|[k' v'] d IH]; simpl.
  - rewrite String.eqb_refl. reflexivity.
  - destruct (k =? k')%string eqn:E; simpl.
    + rewrite String.eqb_refl. reflexivity.
    + rewrite E. exact IH.
Qed.

Lemma dict_get_set_ne {V : Type} (k k' : string) (v : V) (d : dict V) :
  k <> k' -> dict_get k' (dict_set k v d) = dict_get k' d.
Proof.
  intros Hne. induction d as [|[k0 v0] d IH]; simpl.
  - apply String.eqb_neq in Hne. rewrite String.eqb_sym, Hne. reflexivity.
  - destruct (k =? k0)%string eqn:E; simpl.
    + apply String.eqb_eq in E. subst k0.
      apply String.eqb_neq in Hne. rewrite String.eqb_sym, Hne. reflexivity.
    + destruct (k' =? k0)%string; [reflexivity | exact IH].
Qed.

(** Assignment keeps the keys of a dictionary distinct. *)
Lemma dict_set_keys {V : Type} (k : string) (v : V) (d : dict V) :
  NoDup (map fst d) ->
  NoDup (map fst (dict_set k v d))
  /\ (forall k', k' ∈ map fst (dict_set k v d) <-> k' = k \/ k' ∈ map fst d).
Proof.
  induction d as [|[k0 v0] d IH]; simpl; intros Hnd.
  - split; [repeat constructor; apply not_elem_of_nil|].
    intros k'. rewrite list_elem_of_singleton, elem_of_nil. tauto.
  - apply NoDup_cons in Hnd as [Hk0 Hnd]. destruct (IH Hnd) as [IH1 IH2].
    destruct (k =? k0)%string eqn:E; simpl.
    + apply String.eqb_eq in E. subst k0. split.
      * apply NoDup_cons. auto.
      * intros k'. rewrite !elem_of_cons. tauto.
    + apply String.eqb_neq in E. split.
      * apply NoDup_cons. split; [|exact IH1].
        rewrite IH2. intros [->|H]; [congruence | contradiction].
      * intros k'. rewrite !elem_of_cons, IH2. tauto.
Qed.

Lemma dict_get2_set2_eq {V : Type} (profile scheme : string) (v : V) (results : dict (dict V)) :
  dict_get2 profile scheme (dict_set2 profile scheme v results) = Some v.
Proof.
  unfold dict_get2, dict_set2. rewrite dict_get_set_eq. apply dict_get_set_eq.
Qed.

Lemma dict_get2_set2_ne {V : Type} (profile scheme profile' scheme' : string) (v : V)
    (results : dict (dict V)) :
  (profile, scheme) <> (profile', scheme') ->
  dict_get2 profile' scheme' (dict_set2 profile scheme v results)
  = dict_get2 profile' scheme' results.
Proof.
  intros Hne. unfold dict_get2, dict_set2.
  destruct (String.eqb_spec profile profile') as [<-|Hp].
  - rewrite dict_get_set_eq.
    rewrite dict_get_set_ne by congruence.
    destruct (dict_get profile results); [reflexivity|]. reflexivity.
  - rewrite dict_get_set_ne by exact Hp. reflexivity.
Qed.

End PyDataFacts.

(** ** Which files a computation may write *)

Section Frames.
Import Sys Trace PyData.
Local Open Scope string_scope.
Local Open Scope list_scope.

Variable P : path -> Prop.

Lemma writes_only_ret {A} (a : A) : writes_only P (mret a : M A).
Proof. intros s p _. reflexivity. Qed.

Lemma writes_only_write_file (h : host) (f : path) (c : file) :
  P f -> writes_only P (write_file h f c).
Proof.
  intros Hf s p Hp. unfold write_file.
  destruct (writable h (trace s) f); [|reflexivity]. simpl.
  apply lookup_insert_ne. intros ->. contradiction.
Qed.

Lemma writes_only_bind {A B} (m : M A) (k : A -> M B) :
  writes_only P m -> (forall a, writes_only P (k a)) -> writes_only P (m ≫= k).
Proof.
  intros Hm Hk s p Hp. specialize (Hm s p Hp).
  unfold mbind, M_bind, bind. destruct (m s) as [s1 [a|e]]; simpl in *.
  - rewrite (Hk a s1 p Hp). exact Hm.
  - exact Hm.
Qed.

Lemma writes_only_for_each {A} (xs : list A) (body : A -> M unit) :
  (forall x, x ∈ xs -> writes_only P (body x)) -> writes_only P (for_each xs body).
Proof.
  induction xs as [|x xs IH]; intros Hb; simpl.
  - apply writes_only_ret.
  - apply (writes_only_bind (body x)); [apply Hb; left|].
    intros _. apply IH. intros y Hy. apply Hb. right. exact Hy.
Qed.

End Frames.

Lemma run_result {A} (run : Sys.state * Sys.outcome A) (r : Sys.outcome A) :
  run.2 = r -> run = (run.1, r).
Proof. destruct run. simpl. intros ->. reflexivity. Qed.

Lemma bind_returns {A B} (m : Sys.M A) (k : A -> Sys.M B) (s s' : Sys.state) (b : B) :
  (m ≫= k) s = (s', Sys.Return b) ->
  exists s1 a, m s = (s1, Sys.Return a) /\ k a s1 = (s', Sys.Return b).
Proof.
  unfold mbind, Sys.M_bind, Sys.bind. destruct (m s) as [s1 [a|e]]; [eauto | discriminate].
Qed.

(** ** The manual analysis *)

Section ManualAnalysis.
Import Sys Trace PyData.
Local Open Scope string_scope.
Local Open Scope list_scope.

Variable fs : gmap path file.
Variable data_dir : path.

Lemma glob_result_dirs_elem (dir_name : string) (f : file) :
  fs !! (data_dir ++ [dir_name; "result.json"]) = Some f ->
  hidden dir_name = false ->
  dir_name ∈ glob_result_dirs fs data_dir.
Proof.
  intros Hf Hh. unfold glob_result_dirs. apply list_elem_of_omap.
  exists (data_dir ++ [dir_name; "result.json"], f). split.
  - apply elem_of_map_to_list. exact Hf.
  - rewrite below_app. simpl. rewrite Hh. reflexivity.
Qed.

(** The directory name determines what is loaded for a profile and scheme. *)
Lemma load_result_functional (d d' profile scheme : string) (e e' : AnalyzeManual.entry) :
  AnalyzeManual.load_result fs data_dir d = Some (profile, scheme, e) ->
  AnalyzeManual.load_result fs data_dir d' = Some (profile, scheme, e') ->
  e' = e.
Proof.
  intros H H'.
  assert (Hd : forall x en, AnalyzeManual.load_result fs data_dir x = Some (profile, scheme, en) ->
                 x = profile +:+ "_" +:+ scheme).
  { intros x en Hx. unfold AnalyzeManual.load_result in Hx.
    destruct (split_once x) as [[p0 s0]|] eqn:Hsp; [|discriminate].
    destruct (fs !! _) as [[]|]; try discriminate.
    injection Hx as -> -> _. apply split_once_join, Hsp. }
  rewrite (Hd _ _ H) in H. rewrite (Hd _ _ H') in H'. congruence.
Qed.

Lemma collect_results_lookup (result_files : list string) (d profile scheme : string)
    (e : AnalyzeManual.entry) :
  d ∈ result_files ->
  AnalyzeManual.load_result fs data_dir d = Some (profile, scheme, e) ->
  dict_get2 profile scheme (AnalyzeManual.collect_results fs data_dir result_files) = Some e.
Proof.
  intros Hin Hload. unfold AnalyzeManual.collect_results.
  set (step := fun results dir_name =>
                 match AnalyzeManual.load_result fs data_dir dir_name with
                 | Some (profile, scheme, e) => dict_set2 profile scheme e results
                 | None => results
                 end).
  assert (Hkeep : forall l acc,
            dict_get2 profile scheme acc = Some e ->
            dict_get2 profile scheme (fold_left step l acc) = Some e).
  { induction l as [|x l IH]; intros acc Hacc; [exact Hacc|].
    simpl. apply IH. unfold step.
    destruct (AnalyzeManual.load_result fs data_dir x) as [[[p0 s0] e0]|] eqn:Hx; [|exact Hacc].
    destruct (decide ((p0, s0) = (profile, scheme))) as [[= -> ->]|Hne].
    - rewrite (load_result_functional _ _ _ _ _ _ Hload Hx). apply dict_get2_set2_eq.
    - rewrite dict_get2_set2_ne by exact Hne. exact Hacc. }
  generalize (@nil (string * dict AnalyzeManual.entry)).
  induction result_files as [|x l IH]; intros acc; [inversion Hin|].
  simpl. apply elem_of_cons in Hin as [<-|Hin].
  - apply Hkeep. unfold step at 1. rewrite Hload. apply dict_get2_set2_eq.
  - apply IH, Hin.
Qed.

Lemma collect_results_keys (result_files : list string) :
  NoDup (map fst (AnalyzeManual.collect_results fs data_dir result_files)).
Proof.
  unfold AnalyzeManual.collect_results.
  assert (H : NoDup (map fst (@nil (string * dict AnalyzeManual.entry)))) by constructor.
  revert H. generalize (@nil (string * dict AnalyzeManual.entry)).
  induction result_files as [|x l IH]; intros acc Hacc; [exact Hacc|].
  simpl. apply IH.
  destruct (AnalyzeManual.load_result fs data_dir x) as [[[p0 s0] e0]|]; [|exact Hacc].
  apply dict_set_keys, Hacc.
Qed.

Lemma comparison_table_cell (schemes : dict AnalyzeManual.entry) (scheme : string)
    (e : AnalyzeManual.entry) :
  dict_get scheme schemes = Some e ->
  table_cell (AnalyzeManual.comparison_table schemes) scheme "Avg Throughput (Mbps)"
  = Some (Num (AnalyzeManual.avg_throughput e)).
Proof.
  intros Hget. unfold table_cell, AnalyzeManual.comparison_table.
  cbn [columns rows].
  change (list_find (fun c => c = "Avg Throughput (Mbps)")
            ["Scheme"; "Avg Throughput (Mbps)"; "Avg RTT (ms)"; "Loss Rate"])
    with (Some (1%nat, "Avg Throughput (Mbps)")).
  induction schemes as [|[k v] schemes IH]; [discriminate|].
  simpl in *. rewrite String.eqb_sym.
  destruct (scheme =? k)%string.
  - injection Hget as ->. reflexivity.
  - apply IH, Hget.
Qed.

End ManualAnalysis.

Section ManualTables.
Import Sys Trace PyData.
Local Open Scope string_scope.
Local Open Scope list_scope.

Variable h : host.

Lemma write_file_returns (p : path) (c : file) (s s1 : state) :
  write_file h p c s = (s1, Return tt) -> files s1 !! p = Some c.
Proof.
  unfold write_file. destruct (writable h (trace s) p); [|discriminate].
  intros [= <-]. simpl. apply lookup_insert_eq.
Qed.

(** A loop that writes one file per key of a dictionary leaves, for every
    key, the file of that key's value. *)
Lemma for_each_writes {X} (results : dict X) (body : string * X -> M unit)
    (target : string -> path) (content : X -> option file) :
  (forall k v s, body (k, v) s =
                 match content v with
                 | Some c => write_file h (target k) c s
                 | None => (s, Return tt)
                 end) ->
  (forall k k', target k = target k' -> k = k') ->
  NoDup (map fst results) ->
  forall s s1, for_each results body s = (s1, Return tt) ->
  forall k v c, dict_get k results = Some v -> content v = Some c ->
  files s1 !! target k = Some c.
Proof.
  intros Hbody Hinj.
  assert (Hframe : forall l : dict X,
            writes_only (fun p => exists k, k ∈ map fst l /\ p = target k) (for_each l body)).
  { intros l. apply writes_only_for_each. intros [k v] Hin s p Hp.
    rewrite Hbody. destruct (content v); [|reflexivity].
    apply writes_only_write_file with (P := fun p => exists k, k ∈ map fst l /\ p = target k);
      [|exact Hp].
    exists k. split; [|reflexivity]. apply list_elem_of_fmap. exists (k, v). auto. }
  induction results as [|[k0 v0] rest IH]; intros Hnd s s1 Hrun k v c Hget Hc;
    [discriminate|].
  simpl in Hrun. apply bind_returns in Hrun as (s0 & [] & Hhead & Hrest).
  simpl in Hnd. apply NoDup_cons in Hnd as [Hk0 Hnd].
  simpl in Hget. destruct (k =? k0)%string eqn:E.
  - apply String.eqb_eq in E. subst k0. injection Hget as ->.
    rewrite Hbody, Hc in Hhead. apply write_file_returns in Hhead.
    pose proof (Hframe rest s0 (target k)) as Hf. rewrite Hrest in Hf. simpl in Hf.
    rewrite Hf; [exact Hhead|].
    intros (k' & Hk' & Heq). apply Hinj in Heq. subst k'. contradiction.
  - exact (IH Hnd s0 s1 Hrest k v c Hget Hc).
Qed.

Variables data_dir output_dir : path.

Lemma comparison_file_inj (k k' : string) :
  AnalyzeManual.comparison_file output_dir k = AnalyzeManual.comparison_file output_dir k' ->
  k = k'.
Proof.
  unfold AnalyzeManual.comparison_file. intros H.
  apply app_inj_tail in H as [_ H].
  exact (append_inj_l _ _ _ H).
Qed.

Lemma comparison_file_named (k : string) :
  output_named output_dir "v" (AnalyzeManual.comparison_file output_dir k).
Proof.
  eexists. split; [reflexivity|]. rewrite last_char_append by discriminate. reflexivity.
Qed.

Lemma output_named_last (c : ascii) (dir : path) (name : string) :
  output_named output_dir c (dir ++ [name]) -> last_char name = Some c.
Proof.
  intros (n & Heq & Hc). apply app_inj_tail in Heq as [_ ->]. exact Hc.
Qed.

(** The analysis writes comparison tables and figures below the output
    directory, and nothing else. *)
Lemma analyze_results_writes :
  writes_only (fun p => output_named output_dir "v" p \/ output_named output_dir "g" p)
    (AnalyzeManual.analyze_results h data_dir output_dir).
Proof.
  unfold AnalyzeManual.analyze_results.
  apply writes_only_bind; [intros s p _; reflexivity|]. intros fs.
  destruct (glob_result_dirs fs data_dir); [apply writes_only_ret|].
  destruct (AnalyzeManual.collect_results _ _ _) as [|r0 rs]; [apply writes_only_ret|].
  assert (Hpng : forall name : string,
            last_char name = Some "g"%char ->
            writes_only (fun p => output_named output_dir "v" p \/ output_named output_dir "g" p)
              (write_file h (output_dir ++ [name]) Png)).
  { intros name Hn. apply writes_only_write_file. right. exists name. auto. }
  apply writes_only_bind; [|intros _; apply writes_only_bind; [|intros _;
    apply writes_only_bind; [|intros _; apply writes_only_ret]]].
  - apply writes_only_for_each. intros [profile schemes] _.
    destruct schemes; [apply writes_only_ret|].
    apply writes_only_write_file. left. apply comparison_file_named.
  - apply Hpng. reflexivity.
  - apply writes_only_for_each. intros [profile schemes] _.
    apply writes_only_bind; [|intros _; apply writes_only_bind; [|intros _]];
      apply Hpng; rewrite last_char_append by discriminate; reflexivity.
Qed.

End ManualTables.

Section ComparisonClaims.
Import Sys Trace PyData.
Local Open Scope string_scope.
Local Open Scope list_scope.

(** [min] returns one of its arguments, and none of them is smaller. *)
Lemma py_min_is_minimum (a b : Q) :
  (Py.min a b <= a)%Q /\ (Py.min a b <= b)%Q /\ (Py.min a b = a \/ Py.min a b = b).
Proof.
  unfold Py.min. destruct (Qlt_le_dec b a) as [Hlt|Hle].
  - split; [apply Qlt_le_weak, Hlt|]. split; [apply Qle_refl | right; reflexivity].
  - split; [apply Qle_refl|]. split; [exact Hle | left; reflexivity].
Qed.

(** C3: for every stored trial record, the comparison table built by
    [analyze_manual_results.py] shows min(raw average throughput, 50)
    under profile1, min(raw, 1) under profile2 and the raw value under any
    other profile, and the stored [result.json] is the same after the
    analysis as before. *)
Theorem C3_manual_table_clamps_and_keeps_raw (h : host) (s s' : state)
    (data_dir output_dir : path) (profile scheme : string) (rd : result_data) :
  let dir_name := profile +:+ "_" +:+ scheme in
  let stored := data_dir ++ [dir_name; "result.json"] in
  let raw := default 0%Q (avg_throughput rd) in
  split_once dir_name = Some (profile, scheme) ->
  hidden dir_name = false ->
  files s !! stored = Some (Json rd) ->
  AnalyzeManual.analyze_results h data_dir output_dir s = (s', Return 0) ->
  exists t,
    files s' !! AnalyzeManual.comparison_file output_dir profile = Some (Csv t)
    /\ table_cell t scheme "Avg Throughput (Mbps)" =
       Some (Num (if (profile =? "profile1")%string then Py.min raw 50
                  else if (profile =? "profile2")%string then Py.min raw 1
                  else raw))
    /\ files s' !! stored = Some (Json rd).
Proof.
  intros dir_name stored raw Hsplit Hhidden Hfile Hrun.
  (* the stored record is untouched *)
  assert (Hkept : files s' !! stored = Some (Json rd)).
  { pose proof (analyze_results_writes h data_dir output_dir s stored) as Hfr.
    rewrite Hrun in Hfr. cbn [fst] in Hfr.
    transitivity (files s !! stored); [apply Hfr | exact Hfile].
    unfold stored. change [dir_name; "result.json"] with ([dir_name] ++ ["result.json"]).
    rewrite app_assoc.
    intros [Hn|Hn]; apply output_named_last in Hn; discriminate. }
  (* the record is found and loaded *)
  assert (Hload : AnalyzeManual.load_result (files s) data_dir dir_name
                  = Some (profile, scheme,
                          {| AnalyzeManual.avg_throughput :=
                               AnalyzeManual.adjusted_throughput profile rd;
                             AnalyzeManual.avg_delay := default 0%Q (avg_delay rd);
                             AnalyzeManual.loss_rate := default 0%Q (loss_rate rd);
                             AnalyzeManual.throughput_data :=
                               match files s !! (data_dir ++
                                       [dir_name; scheme +:+ "_throughput.csv"]) with
                               | Some (Csv t) => t
                               | _ => empty_frame
                               end |})).
  { unfold AnalyzeManual.load_result. rewrite Hsplit. fold stored. rewrite Hfile.
    reflexivity. }
  pose proof (glob_result_dirs_elem (files s) data_dir dir_name _ Hfile Hhidden) as Hin.
  pose proof (collect_results_lookup _ _ _ _ _ _ _ Hin Hload) as Hget.
  pose proof (collect_results_keys (files s) data_dir
                (glob_result_dirs (files s) data_dir)) as Hnd.
  unfold AnalyzeManual.analyze_results in Hrun.
  apply bind_returns in Hrun as (s0 & fs & Hread & Hrun).
  injection Hread as <- <-.
  destruct (glob_result_dirs (files s) data_dir) as [|g gs] eqn:Hg; [inversion Hin|].
  destruct (AnalyzeManual.collect_results (files s) data_dir (g :: gs))
    as [|r0 rs] eqn:Hr; [discriminate|].
  apply bind_returns in Hrun as (s1 & [] & Htables & Hrun).
  apply bind_returns in Hrun as (s2 & [] & Hfigure & Hrun).
  apply bind_returns in Hrun as (s3 & [] & Hfigures & Hrun).
  injection Hrun as <-.
  unfold dict_get2 in Hget.
  destruct (dict_get profile (r0 :: rs)) as [schemes|] eqn:Hschemes; [|discriminate].
  exists (AnalyzeManual.comparison_table schemes).
  split; [|split; [|exact Hkept]].
  - (* the table is written, and the figures do not replace it *)
    assert (Hg_named : ~ output_named output_dir "g"
                         (AnalyzeManual.comparison_file output_dir profile)).
    { intros Hn. apply output_named_last in Hn.
      rewrite last_char_append in Hn by discriminate. discriminate. }
    assert (Hs1 : files s1 !! AnalyzeManual.comparison_file output_dir profile
                  = Some (Csv (AnalyzeManual.comparison_table schemes))).
    { refine (for_each_writes h (r0 :: rs) _
                (AnalyzeManual.comparison_file output_dir)
                (fun v => match v with
                          | [] => None
                          | _ => Some (Csv (AnalyzeManual.comparison_table v))
                          end)
                _ (comparison_file_inj output_dir) Hnd s s1 Htables
                profile schemes _ Hschemes _).
      - intros k [|v0 v] st; reflexivity.
      - destruct schemes; [discriminate | reflexivity]. }
    assert (Hpng : forall name, last_char name = Some "g"%char ->
              writes_only (output_named output_dir "g")
                (write_file h (output_dir ++ [name]) Png)).
    { intros name Hn. apply writes_only_write_file. exists name. auto. }
    assert (Hs2 : files s2 !! AnalyzeManual.comparison_file output_dir profile
                  = files s1 !! AnalyzeManual.comparison_file output_dir profile).
    { pose proof (Hpng "throughput_vs_rtt.png" eq_refl s1 _ Hg_named) as Hf.
      rewrite Hfigure in Hf. exact Hf. }
    assert (Hs3 : files s3 !! AnalyzeManual.comparison_file output_dir profile
                  = files s2 !! AnalyzeManual.comparison_file output_dir profile).
    { match type of Hfigures with for_each ?xs ?body _ = _ =>
        assert (Hw : writes_only (output_named output_dir "g") (for_each xs body)) end.
      { apply writes_only_for_each. intros [p0 sch] _.
        apply writes_only_bind; [|intros _; apply writes_only_bind; [|intros _]];
          apply Hpng; rewrite last_char_append by discriminate; reflexivity. }
      pose proof (Hw s2 _ Hg_named) as Hf. rewrite Hfigures in Hf. exact Hf. }
    rewrite Hs3, Hs2. exact Hs1.
  - rewrite (comparison_table_cell schemes scheme _ Hget). reflexivity.
Qed.

(** The theorem on the store with the 3.4 Mbps record: 1 is displayed,
    3.4 stays stored. *)
Lemma C3_manual_table_clamps_and_keeps_raw_witness :
  let s' := (AnalyzeManual.analyze_results Examples.healthy Examples.data Examples.graphs
               Examples.stored_overshoot).1 in
  exists t,
    files s' !! AnalyzeManual.comparison_file Examples.graphs "profile2" = Some (Csv t)
    /\ table_cell t "cubic" "Avg Throughput (Mbps)" = Some (Num 1)
    /\ files s' !! (Examples.data ++ ["profile2_cubic"; "result.json"])
       = Some (Json Examples.overshoot).
Proof.
  refine (C3_manual_table_clamps_and_keeps_raw Examples.healthy Examples.stored_overshoot _
            Examples.data Examples.graphs "profile2" "cubic" Examples.overshoot
            eq_refl eq_refl _ _).
  - vm_compute. reflexivity.
  - apply run_result. vm_compute. reflexivity.
Defined.

End ComparisonClaims.

Section StoredRecords.
Import Sys Trace PyData.
Local Open Scope string_scope.
Local Open Scope list_scope.

(** X6: whatever the outcome of the manual analysis, every file that is
    not a table or figure directly below the output directory is left as
    it was; in particular no [result.json] is rewritten. *)
Theorem analysis_keeps_stored_records (h : host) (data_dir output_dir dir : path)
    (s : state) :
  files (AnalyzeManual.analyze_results h data_dir output_dir s).1 !! (dir ++ ["result.json"])
  = files s !! (dir ++ ["result.json"]).
Proof.
  apply (analyze_results_writes h data_dir output_dir s (dir ++ ["result.json"])).
  intros [Hn|Hn]; apply output_named_last in Hn; discriminate.
Qed.

End StoredRecords.

(** ** Which trials a batch starts *)

Section TrialLog.
Import Sys Trace.
Local Open Scope string_scope.
Local Open Scope list_scope.

Lemma trials_snoc (t : list event) (e : event) :
  trials (t ++ [e]) = trials t ++ trials [e].
Proof. unfold trials. apply omap_app. Qed.

Lemma starts_on_return {A} (l : list (string * string)) (m : M A) :
  starts l m -> on_return l m.
Proof. intros Hm s s' a Hrun. specialize (Hm s). rewrite Hrun in Hm. exact Hm. Qed.

Lemma starts_ret {A} (a : A) : starts [] (mret a : M A).
Proof. intros s. simpl. rewrite app_nil_r. reflexivity. Qed.

Lemma starts_raise {A} (e : exn) : starts [] (raise e : M A).
Proof. intros s. simpl. rewrite app_nil_r. reflexivity. Qed.

Lemma starts_history : starts [] history.
Proof. intros s. simpl. rewrite app_nil_r. reflexivity. Qed.

Lemma starts_write_file (h : host) (f : path) (c : file) : starts [] (write_file h f c).
Proof.
  intros s. unfold write_file.
  destruct (writable h (trace s) f); simpl; rewrite app_nil_r; reflexivity.
Qed.

Lemma starts_redirect (h : host) (f : path) : starts [] (redirect h f).
Proof.
  intros s. unfold redirect.
  destruct (writable h (trace s) f); simpl; rewrite app_nil_r; reflexivity.
Qed.

Lemma starts_bind {A B} (l : list (string * string)) (m : M A) (k : A -> M B) :
  starts l m -> (forall a, starts [] (k a)) -> starts l (m ≫= k).
Proof.
  intros Hm Hk s. specialize (Hm s).
  unfold mbind, M_bind, bind. destruct (m s) as [s1 [a|e]]; simpl in *.
  - rewrite (Hk a s1), Hm, app_nil_r. reflexivity.
  - exact Hm.
Qed.

Lemma starts_emit {A} (l : list (string * string)) (e : event) (k : unit -> M A) :
  starts l (k tt) -> starts (trials [e] ++ l) (emit e ≫= k).
Proof.
  intros Hk s. rewrite bind_emit, Hk. simpl trace.
  rewrite trials_snoc, app_assoc. reflexivity.
Qed.

Lemma starts_try_except {A} (l : list (string * string)) (body : M A)
    (handler : exn -> M A) :
  starts l body -> (forall e, starts [] (handler e)) -> starts l (try_except body handler).
Proof.
  intros Hb Hh s. specialize (Hb s).
  unfold try_except. destruct (body s) as [s1 [a|e]]; simpl in *.
  - exact Hb.
  - rewrite (Hh e s1), Hb, app_nil_r. reflexivity.
Qed.

Lemma starts_try_finally {A} (l : list (string * string)) (body : M A) (final : M unit) :
  starts l body -> starts [] final -> starts l (try_finally body final).
Proof.
  intros Hb Hf s. specialize (Hb s).
  unfold try_finally. destruct (body s) as [s1 r]. specialize (Hf s1).
  destruct (final s1) as [s2 [u|e]]; simpl in *; rewrite Hf, Hb, app_nil_r; reflexivity.
Qed.

Lemma starts_run_command (h : host) (cmd : command) (log_file : option path) :
  starts [] (run_command h cmd log_file).
Proof.
  unfold run_command.
  apply starts_bind; [destruct log_file; [apply starts_write_file | apply starts_ret]|].
  intros _. apply starts_bind; [apply starts_history|]. intros past.
  apply (starts_emit [] (Spawn cmd)).
  destruct (popen h past cmd); [apply starts_ret | apply starts_raise].
Qed.

Lemma on_return_bind {A B} (l1 l2 : list (string * string)) (m : M A) (k : A -> M B) :
  on_return l1 m -> (forall a, on_return l2 (k a)) -> on_return (l1 ++ l2) (m ≫= k).
Proof.
  intros Hm Hk s s' b Hrun. apply bind_returns in Hrun as (s1 & a & H1 & H2).
  rewrite (Hk a _ _ _ H2), (Hm _ _ _ H1), app_assoc. reflexivity.
Qed.

Lemma on_return_for_each {A} (g : A -> list (string * string)) (xs : list A)
    (body : A -> M unit) :
  (forall x, on_return (g x) (body x)) -> on_return (concat (map g xs)) (for_each xs body).
Proof.
  intros Hb. induction xs as [|x xs IH]; simpl.
  - apply starts_on_return, starts_ret.
  - apply on_return_bind; [apply Hb|]. intros _. exact IH.
Qed.

Lemma collect_returns {A B} (g : A -> list (string * string)) (f : A -> M B)
    (xs : list A) :
  (forall x, on_return (g x) (f x)) ->
  forall s s' rs, collect xs f s = (s', Return rs) ->
  length rs = length xs /\ trials (trace s') = trials (trace s) ++ concat (map g xs).
Proof.
  intros Hf. induction xs as [|x xs IH]; intros s s' rs Hrun; simpl in Hrun.
  - injection Hrun as <- <-. simpl. rewrite app_nil_r. auto.
  - apply bind_returns in Hrun as (s1 & r & H1 & Hrun).
    apply bind_returns in Hrun as (s2 & rs' & H2 & Hrun).
    injection Hrun as <- <-. destruct (IH _ _ _ H2) as [Hlen Htr].
    simpl. rewrite Hlen, Htr, (Hf x _ _ _ H1), app_assoc. auto.
Qed.

(** Discharges [starts [] m] for straight-line code. *)
Ltac quiet :=
  repeat first
    [ apply starts_ret
    | apply starts_raise
    | apply starts_history
    | apply starts_write_file
    | apply starts_redirect
    | apply starts_run_command
    | apply starts_bind; [|intros ?]
    | match goal with
      | |- starts _ (match ?x with _ => _ end) => destruct x
      | |- starts _ (if ?x then _ else _) => destruct x
      end ].

Lemma run_single_experiment_starts (h : host) (scheme profile : string) (runtime : Z) :
  starts [(scheme, profile)] (Pantheon.run_single_experiment h scheme profile runtime).
Proof.
  unfold Pantheon.run_single_experiment.
  apply (starts_emit [] (Call (run_single_experiment_call scheme profile runtime))).
  destruct (Pantheon.profile_parameters profile) as [[[[d b] q] t]|]; quiet.
Qed.

Lemma run_experiment_starts (h : host) (cc profile : string) (runtime : Z) :
  starts [(cc, profile)] (Tc.run_experiment h cc profile runtime).
Proof.
  unfold Tc.run_experiment.
  apply (starts_emit [] (Call (run_experiment_call cc profile runtime))).
  destruct (Tc.profile_parameters profile) as [[[d b] q]|]; [|apply starts_ret].
  unfold Tc.get_default_interface.
  apply starts_bind; [quiet|]. intros interface.
  destruct (interface =? "")%string; [apply starts_ret|].
  apply starts_bind; [apply starts_run_command|]. intros _.
  apply starts_try_finally.
  - apply starts_try_except; [|intros; apply starts_ret].
    unfold Tc.setup_tc, Tc.load_iperf_result.
    apply starts_bind; [|intros _; quiet].
    apply (starts_emit [] (Call (setup_tc_call interface b d q))). quiet.
  - unfold Tc.cleanup_tc.
    apply starts_bind; [|intros _; quiet].
    apply (starts_emit [] (Call (cleanup_tc_call interface))). quiet.
Qed.

End TrialLog.

(** ** Batches run to the end *)

Section BatchIsolation.
Import Sys Trace.
Local Open Scope string_scope.
Local Open Scope list_scope.

(** X2: [run_experiments.py] without a worker pool ([--parallel] at most 1,
    the default): unless an exception escapes, every (scheme, profile) pair
    of the grid is run, in order, whatever the results of the earlier
    trials, and there is one result per pair. *)
Theorem pantheon_runs_every_pair (h : host) (a : Pantheon.args) (s s' : state)
    (results : list Z) :
  (Pantheon.parallel a <= 1)%Z ->
  Pantheon.run_all h a s = (s', Return results) ->
  length results = length (Pantheon.experiments a)
  /\ trials (trace s') =
     trials (trace s) ++ map (fun exp => (exp.1.1, exp.1.2)) (Pantheon.experiments a).
Proof.
  intros Hsequential Hrun.
  assert (Hc : collect (Pantheon.experiments a) (Pantheon.run_exp h) s = (s', Return results)).
  { unfold Pantheon.run_all in Hrun.
    apply Z.ltb_ge in Hsequential. rewrite Hsequential in Hrun. exact Hrun. }
  assert (Hexp : forall exp, on_return [(exp.1.1, exp.1.2)] (Pantheon.run_exp h exp)).
  { intros [[scheme profile] runtime]. apply starts_on_return.
    apply run_single_experiment_starts. }
  destruct (collect_returns _ _ _ Hexp _ _ _ Hc) as [Hlen Htr].
  split; [exact Hlen|]. rewrite Htr.
  assert (Hflat : forall xs : list (string * string * Z),
            concat (map (fun exp => [(exp.1.1, exp.1.2)]) xs)
            = map (fun exp => (exp.1.1, exp.1.2)) xs).
  { induction xs as [|x xs IH]; [reflexivity|]. simpl. rewrite IH. reflexivity. }
  rewrite Hflat. reflexivity.
Qed.

(** A grid of four pairs in which the first trial fails. *)
Lemma pantheon_runs_every_pair_witness :
  let run := Pantheon.run_all Examples.one_test_fails Examples.vivace_grid Examples.fresh in
  run.2 = Return [1; 0; 0; 0]
  /\ trials (trace run.1) =
     [("vivace", "profile1"); ("vivace", "profile2");
      ("cubic", "profile1"); ("cubic", "profile2")].
Proof.
  split; [vm_compute; reflexivity|].
  refine (proj2 (pantheon_runs_every_pair Examples.one_test_fails Examples.vivace_grid
                   Examples.fresh _ [1; 0; 0; 0] _ _)).
  - simpl. lia.
  - apply run_result. vm_compute. reflexivity.
Defined.

(** X1: [run_experiments.py]: the exit status is 0 exactly when every trial
    result is 0, and 1 exactly when some result is not 0. *)
Theorem pantheon_exit_status (h : host) (a : Pantheon.args) (s s' : state)
    (results : list Z) :
  Pantheon.run_all h a s = (s', Return results) ->
  let status := (Pantheon.exit_status h a s).2 in
  (Pantheon.exit_status h a s).1 = s'
  /\ (status = 0 <-> Forall (fun r => r = 0) results)
  /\ (status = 1 <-> Exists (fun r => r <> 0) results).
Proof.
  intros Hrun status. subst status.
  unfold Pantheon.exit_status, Pantheon.main. rewrite bind_run, Hrun.
  assert (Hall : forallb (fun r => Z.eqb r 0) results = true <-> Forall (fun r => r = 0) results).
  { rewrite forallb_forall, Forall_forall. split; intros H x Hx.
    - apply Z.eqb_eq, H, list_elem_of_In, Hx.
    - apply Z.eqb_eq, H, list_elem_of_In, Hx. }
  destruct (forallb (fun r => Z.eqb r 0) results) eqn:E; rewrite ret_run; simpl.
  - split; [reflexivity|]. split.
    + split; [intros _; apply Hall; reflexivity | reflexivity].
    + split; [discriminate|]. intros Hex. apply Exists_exists in Hex as (r & Hr & Hne).
      assert (Hf : Forall (fun r => r = 0) results) by (apply Hall; reflexivity).
      rewrite Forall_forall in Hf. destruct (Hne (Hf r Hr)).
  - split; [reflexivity|]. split.
    + split; [discriminate|]. intros Hf. apply Hall in Hf. discriminate.
    + split; [intros _ | reflexivity].
      apply not_Forall_Exists; [intros r; apply Z.eq_dec|].
      intros Hf. apply Hall in Hf. discriminate.
Qed.

(** The same grid: the exit status is 1. *)
Lemma pantheon_exit_status_witness :
  (Pantheon.exit_status Examples.one_test_fails Examples.vivace_grid Examples.fresh).2 = 1
  /\ Exists (fun r => r <> 0) [1; 0; 0; 0].
Proof.
  split; [vm_compute; reflexivity|].
  refine (proj1 (proj2 (proj2 (pantheon_exit_status Examples.one_test_fails
                                 Examples.vivace_grid Examples.fresh _ [1; 0; 0; 0] _))) _).
  - apply run_result. vm_compute. reflexivity.
  - vm_compute. reflexivity.
Defined.

(** X3: [tc_experiment.py]: unless an exception escapes, every available
    scheme is run under every profile, in order, whatever the results of
    the earlier trials. *)
Theorem tc_runs_every_pair (h : host) (a : Tc.args) (s s' : state) (code : Z) :
  Tc.main h a s = (s', Return code) ->
  let schemes :=
    List.filter (fun scheme => bool_decide (scheme ∈ Tc.get_available_cc_algorithms h))
      (Tc.schemes a) in
  trials (trace s') =
  trials (trace s)
  ++ concat (map (fun scheme => map (fun profile => (scheme, profile)) (Tc.profiles a))
               schemes).
Proof.
  intros Hrun schemes. unfold Tc.main in Hrun. fold schemes in Hrun.
  destruct schemes as [|x xs] eqn:Hs.
  { injection Hrun as <- _. simpl. rewrite app_nil_r. reflexivity. }
  rewrite <- Hs in *. clear Hs x xs.
  apply bind_returns in Hrun as (s1 & [] & Hloops & Hret).
  injection Hret as <- _.
  refine (on_return_for_each
            (fun scheme => map (fun profile => (scheme, profile)) (Tc.profiles a))
            schemes _ _ _ _ _ Hloops).
  intros scheme.
  assert (Hinner : forall ps,
            on_return (concat (map (fun profile => [(scheme, profile)]) ps))
              (for_each ps (fun profile =>
                 result ← Tc.run_experiment h scheme profile (Tc.runtime a); mret tt))).
  { intros ps. apply on_return_for_each. intros profile. apply starts_on_return.
    apply starts_bind; [apply run_experiment_starts | intros; apply starts_ret]. }
  replace (map (fun profile => (scheme, profile)) (Tc.profiles a))
    with (concat (map (fun profile => [(scheme, profile)]) (Tc.profiles a))).
  - apply Hinner.
  - generalize (Tc.profiles a). intros ps.
    induction ps as [|p ps IH]; [reflexivity|]. simpl. rewrite IH. reflexivity.
Qed.

(** The batch in which the capture of one trial is lost. *)
Lemma tc_runs_every_pair_witness :
  trials (trace (Tc.main Examples.one_capture_lost Examples.two_by_two Examples.fresh).1) =
  [("cubic", "profile1"); ("cubic", "profile2"); ("bbr", "profile1"); ("bbr", "profile2")].
Proof.
  refine (tc_runs_every_pair Examples.one_capture_lost Examples.two_by_two Examples.fresh
            _ 0 _).
  apply run_result. vm_compute. reflexivity.
Defined.

End BatchIsolation.

(** ** The summary against the series *)

Section SummaryStatistics.
Import Sys Observe.
Local Open Scope string_scope.
Local Open Scope list_scope.

Variable delay_ms : Z.

(** The running totals of the interval loop are the sums of the columns. *)
Lemma process_intervals_totals (ivs : list interval) : forall acc : Tc.totals,
  exists series acc',
    mapM (Tc.interval_sample delay_ms) ivs = Some series
    /\ Tc.process_intervals delay_ms ivs acc = Some acc'
    /\ Tc.total_throughput acc' =
       fold_left Qplus (map Tc.throughput series) (Tc.total_throughput acc)
    /\ Tc.total_retransmits acc' =
       fold_left Qplus (map (fun i => Tc.sum_field i "retransmits") ivs)
         (Tc.total_retransmits acc)
    /\ Tc.total_bytes acc' =
       fold_left Qplus (map (fun i => Tc.sum_field i "bytes") ivs) (Tc.total_bytes acc).
Proof.
  induction ivs as [|i ivs IH]; intros acc.
  - exists [], acc. simpl. auto.
  - simpl. unfold Tc.process_interval.
    rewrite interval_sample_defined. simpl.
    match goal with |- context [Tc.process_intervals _ _ ?a] =>
      destruct (IH a) as (series & acc' & Hm & Hp & Ht & Hr & Hb) end.
    rewrite Hm. simpl. eexists _, acc'. split; [reflexivity|].
    split; [exact Hp|]. simpl in *. auto.
Qed.

(** The reducer, field by field. *)
Lemma reduce_characterised (cc_algorithm profile : string) (ivs : list interval) :
  let bytes := total (map (fun i => Tc.sum_field i "bytes") ivs) in
  let retransmits := total (map (fun i => Tc.sum_field i "retransmits") ivs) in
  let n := Z.of_nat (length ivs) in
  exists series,
    mapM (Tc.interval_sample delay_ms) ivs = Some series
    /\ Tc.reduce cc_algorithm profile delay_ms ivs =
       Some (series,
             {| Sys.cc_algorithm := Some cc_algorithm;
                Sys.profile := Some profile;
                avg_throughput :=
                  Some (if (0 <? n)%Z
                        then total (map Tc.throughput series) / inject_Z n else 0)%Q;
                avg_delay := Some (inject_Z (delay_ms * 2));
                loss_rate :=
                  Some (if Py.gt0 bytes
                        then retransmits / (bytes / 1500) else retransmits / 1)%Q |}).
Proof.
  intros bytes retransmits n. unfold Tc.reduce.
  destruct (process_intervals_totals ivs Tc.no_totals)
    as (series & acc & Hm & Hp & Ht & Hr & Hb).
  change (Tc.total_throughput acc = total (map Tc.throughput series)) in Ht.
  change (Tc.total_retransmits acc = retransmits) in Hr.
  change (Tc.total_bytes acc = bytes) in Hb.
  assert (Hseries : Tc.throughput_data acc = series).
  { destruct (process_intervals_series delay_ms ivs Tc.no_totals)
      as (series' & acc'' & Hm' & Hp' & Hd').
    rewrite Hm in Hm'. rewrite Hp in Hp'. injection Hm' as <-. injection Hp' as <-.
    exact Hd'. }
  exists series. split; [exact Hm|].
  rewrite Hp. simpl. rewrite Ht, Hr, Hb, Hseries. fold n.
  assert (Havg :
    (if (0 <? n)%Z
     then Py.div (total (map Tc.throughput series)) (inject_Z n) else Some 0%Q)
    = Some (if (0 <? n)%Z then total (map Tc.throughput series) / inject_Z n else 0)%Q).
  { destruct (0 <? n)%Z eqn:En; [|reflexivity].
    apply Z.ltb_lt in En. apply div_positive. unfold Qlt. simpl. lia. }
  rewrite Havg. cbn [mbind option_bind].
  destruct (Py.gt0 bytes) eqn:Eb.
  - apply gt0_true in Eb.
    assert (Hpk : (0 < bytes / 1500)%Q).
    { apply Qlt_shift_div_l; [reflexivity|]. rewrite Qmult_0_l. exact Eb. }
    rewrite (div_positive bytes 1500) by reflexivity. cbn [mbind option_bind].
    rewrite (proj2 (gt0_true _) Hpk), (div_positive _ _ Hpk). reflexivity.
  - reflexivity.
Qed.

(** X7: the summary's average throughput is the arithmetic mean of the
    throughput column of the series, and its loss rate is computed over the
    whole trial: total retransmits over total bytes / 1500 when bytes were
    transferred, and the total retransmit count otherwise. *)
Theorem summary_of_series (cc_algorithm profile : string) (ivs : list interval) :
  let bytes := total (map (fun i => Tc.sum_field i "bytes") ivs) in
  let retransmits := total (map (fun i => Tc.sum_field i "retransmits") ivs) in
  exists series result avg loss,
    Tc.reduce cc_algorithm profile delay_ms ivs = Some (series, result)
    /\ avg_throughput result = Some avg
    /\ loss_rate result = Some loss
    /\ (avg * inject_Z (Z.of_nat (length ivs)) == total (map Tc.throughput series))%Q
    /\ ((0 < bytes)%Q -> (loss == retransmits / (bytes / 1500))%Q)
    /\ ((bytes <= 0)%Q -> (loss == retransmits)%Q).
Proof.
  intros bytes retransmits.
  destruct (reduce_characterised cc_algorithm profile ivs) as (series & Hm & Hr).
  eexists series, _, _, _. split; [exact Hr|]. cbn [avg_throughput loss_rate].
  split; [reflexivity|]. split; [reflexivity|]. fold bytes retransmits.
  split; [|split].
  - destruct (0 <? Z.of_nat (length ivs))%Z eqn:En.
    + apply Z.ltb_lt in En. field. unfold Qeq. simpl. lia.
    + apply Z.ltb_ge in En.
      assert (Hnil : ivs = []) by (destruct ivs; [reflexivity | simpl in En; lia]).
      subst ivs. simpl in Hm. injection Hm as <-. reflexivity.
  - intros Hpos. rewrite (proj2 (gt0_true _) Hpos). reflexivity.
  - intros Hle. rewrite (proj2 (gt0_false _) Hle). apply div_by_one.
Qed.

Lemma total_nonneg (xs : list Q) :
  Forall (fun x => 0 <= x)%Q xs -> (0 <= total xs)%Q.
Proof.
  intros Hxs. unfold total.
  assert (H : forall a, (0 <= a)%Q -> (0 <= fold_left Qplus xs a)%Q).
  { induction Hxs as [|x xs Hx _ IH]; intros a Ha; [exact Ha|].
    simpl. apply IH. rewrite <- (Qplus_0_r 0). apply Qplus_le_compat; assumption. }
  apply H, Qle_refl.
Qed.

Lemma div_nonneg (a b : Q) : (0 <= a)%Q -> (0 < b)%Q -> (0 <= a / b)%Q.
Proof.
  intros Ha Hb. apply Qle_shift_div_l; [exact Hb|]. rewrite Qmult_0_l. exact Ha.
Qed.

(** X8: when no interval reports a negative byte or retransmit count, no
    throughput and no loss value of the series or of the summary is
    negative. *)
Theorem reducer_nonnegative (cc_algorithm profile : string) (ivs : list interval) :
  Forall (fun i => (0 <= Tc.sum_field i "bytes")%Q
                   /\ (0 <= Tc.sum_field i "retransmits")%Q) ivs ->
  exists series result avg loss,
    Tc.reduce cc_algorithm profile delay_ms ivs = Some (series, result)
    /\ Forall (fun smp => (0 <= Tc.throughput smp)%Q /\ (0 <= Tc.loss smp)%Q) series
    /\ avg_throughput result = Some avg /\ (0 <= avg)%Q
    /\ loss_rate result = Some loss /\ (0 <= loss)%Q.
Proof.
  intros Hivs.
  destruct (reduce_characterised cc_algorithm profile ivs) as (series & Hm & Hr).
  assert (Hseries : Forall (fun smp => (0 <= Tc.throughput smp)%Q
                                       /\ (0 <= Tc.loss smp)%Q) series).
  { apply mapM_Some in Hm. clear Hr.
    induction Hm as [|i smp ivs' series' Hi _ IH]; [constructor|].
    apply Forall_cons in Hivs as [[Hb Hrt] Hivs]. constructor; [|apply IH, Hivs].
    rewrite interval_sample_defined in Hi. injection Hi as <-. simpl. split.
    - destruct (Py.gt0 (Tc.sum_field i "seconds")) eqn:E; [|apply Qle_refl].
      apply gt0_true in E. apply div_nonneg.
      + rewrite <- (Qmult_0_l 8). apply Qmult_le_compat_r; [exact Hb | discriminate].
      + apply Qmult_lt_0_compat; [exact E | reflexivity].
    - destruct (Py.gt0 (Tc.sum_field i "bytes")) eqn:E.
      + apply gt0_true in E. apply div_nonneg; [exact Hrt|].
        apply Qlt_shift_div_l; [reflexivity|]. rewrite Qmult_0_l. exact E.
      + apply div_nonneg; [exact Hrt | reflexivity]. }
  assert (Hbytes : (0 <= total (map (fun i => Tc.sum_field i "bytes") ivs))%Q).
  { apply total_nonneg, Forall_map. eapply Forall_impl; [exact Hivs|]. simpl. tauto. }
  assert (Hretr : (0 <= total (map (fun i => Tc.sum_field i "retransmits") ivs))%Q).
  { apply total_nonneg, Forall_map. eapply Forall_impl; [exact Hivs|]. simpl. tauto. }
  assert (Hthr : (0 <= total (map Tc.throughput series))%Q).
  { apply total_nonneg, Forall_map. eapply Forall_impl; [exact Hseries|]. simpl. tauto. }
  eexists series, _, _, _. split; [exact Hr|]. cbn [avg_throughput loss_rate].
  split; [exact Hseries|]. split; [reflexivity|]. split; [|split; [reflexivity|]].
  - destruct (0 <? Z.of_nat (length ivs))%Z eqn:En; [|apply Qle_refl].
    apply Z.ltb_lt in En. apply div_nonneg; [exact Hthr|]. unfold Qlt. simpl. lia.
  - destruct (Py.gt0 _) eqn:E.
    + apply gt0_true in E. apply div_nonneg; [exact Hretr|].
      apply Qlt_shift_div_l; [reflexivity|]. rewrite Qmult_0_l. exact E.
    + apply div_nonneg; [exact Hretr | reflexivity].
Qed.

End SummaryStatistics.

(** Half a second with 62500 bytes and one retransmit, then a stalled second. *)
Lemma reducer_nonnegative_witness :
  exists series result avg loss,
    Tc.reduce "cubic"%string "profile2"%string 200
      [Examples.capture (1 # 2) 62500 1; Examples.stalled_interval] = Some (series, result)
    /\ Forall (fun smp => (0 <= Tc.throughput smp)%Q /\ (0 <= Tc.loss smp)%Q) series
    /\ Sys.avg_throughput result = Some avg /\ (0 <= avg)%Q
    /\ Sys.loss_rate result = Some loss /\ (0 <= loss)%Q.
Proof.
  apply (reducer_nonnegative 200 "cubic"%string "profile2"%string).
  repeat constructor; vm_compute; discriminate.
Defined.

(** ** Frames and inversions for the runners *)

Section RunnerFrames.
Import Sys Trace Observe.
Local Open Scope string_scope.
Local Open Scope list_scope.

Variable P : path -> Prop.

Lemma writes_only_emit (e : event) : writes_only P (emit e).
Proof. intros s p _. reflexivity. Qed.

Lemma writes_only_history : writes_only P history.
Proof. intros s p _. reflexivity. Qed.

Lemma writes_only_raise {A} (e : exn) : writes_only P (raise e : M A).
Proof. intros s p _. reflexivity. Qed.

Lemma writes_only_try_except {A} (body : M A) (handler : exn -> M A) :
  writes_only P body -> (forall e, writes_only P (handler e)) ->
  writes_only P (try_except body handler).
Proof.
  intros Hb Hh s p Hp. specialize (Hb s p Hp).
  unfold try_except. destruct (body s) as [s1 [a|e]]; simpl in *.
  - exact Hb.
  - rewrite (Hh e s1 p Hp). exact Hb.
Qed.

Lemma writes_only_try_finally {A} (body : M A) (final : M unit) :
  writes_only P body -> writes_only P final -> writes_only P (try_finally body final).
Proof.
  intros Hb Hf s p Hp. specialize (Hb s p Hp).
  unfold try_finally. destruct (body s) as [s1 r]. specialize (Hf s1 p Hp).
  destruct (final s1) as [s2 [u|e]]; simpl in *; rewrite Hf; exact Hb.
Qed.

Lemma writes_only_redirect (h : host) (f : path) : P f -> writes_only P (redirect h f).
Proof.
  intros Hf s p Hp. unfold redirect.
  destruct (writable h (trace s) f); [|reflexivity]. simpl.
  apply lookup_insert_ne. intros ->. contradiction.
Qed.

Lemma writes_only_weaken {A} (P' : path -> Prop) (m : M A) :
  (forall p, P' p -> P p) -> writes_only P' m -> writes_only P m.
Proof.
  intros Himp Hm s p Hp. apply Hm. intros Hp'. apply Hp, Himp, Hp'.
Qed.

Lemma writes_only_run_command (h : host) (cmd : command) (log_file : option path) :
  match log_file with Some p => P p | None => True end ->
  writes_only P (run_command h cmd log_file).
Proof.
  intros Hlog. unfold run_command.
  apply writes_only_bind.
  { destruct log_file; [apply writes_only_write_file, Hlog | apply writes_only_ret]. }
  intros _. apply writes_only_bind; [apply writes_only_history|]. intros past.
  apply writes_only_bind; [apply writes_only_emit|]. intros _.
  destruct (popen h past cmd); [apply writes_only_ret | apply writes_only_raise].
Qed.

End RunnerFrames.

(** Discharges [writes_only P m] for straight-line code without file output. *)
Ltac framed :=
  repeat first
    [ apply writes_only_ret
    | apply writes_only_raise
    | apply writes_only_history
    | apply writes_only_emit
    | apply writes_only_run_command; exact I
    | apply writes_only_bind; [|intros ?]
    | match goal with
      | |- Trace.writes_only _ (match ?x with _ => _ end) => destruct x
      end ].

Section RunnerInversions.
Import Sys Trace Observe.
Local Open Scope string_scope.
Local Open Scope list_scope.

(** A computation that may write no file at all leaves the store as it was. *)
Lemma keeps_files {A} (m : M A) :
  writes_only (fun _ => False) m -> forall s, files (m s).1 = files s.
Proof.
  intros Hm s. apply map_eq. intros p. apply Hm. tauto.
Qed.

Lemma run_command_returns (h : host) (cmd : command) (s s1 : state) (rc : Z) :
  run_command h cmd None s = (s1, Return rc) ->
  s1 = {| trace := trace s ++ [Spawn cmd]; files := files s |}
  /\ popen h (trace s) cmd = Some rc.
Proof.
  rewrite run_command_plain. destruct (popen h (trace s) cmd); [|discriminate].
  intros [= <- <-]. auto.
Qed.

Lemma run_command_logged_returns (h : host) (cmd : command) (log_file : path)
    (s s1 : state) (rc : Z) :
  run_command h cmd (Some log_file) s = (s1, Return rc) ->
  s1 = {| trace := trace s ++ [Spawn cmd]; files := <[log_file := Log]> (files s) |}
  /\ popen h (trace s) cmd = Some rc.
Proof.
  rewrite run_command_logged. destruct (writable h (trace s) log_file); [|discriminate].
  destruct (popen h (trace s) cmd); [|discriminate].
  intros [= <- <-]. auto.
Qed.

Lemma write_file_inv (h : host) (p : path) (c : file) (s s1 : state) :
  write_file h p c s = (s1, Return tt) ->
  s1 = {| trace := trace s; files := <[p := c]> (files s) |}.
Proof.
  unfold write_file. destruct (writable h (trace s) p); [|discriminate].
  intros [= <-]. reflexivity.
Qed.

Lemma redirect_returns (h : host) (p : path) (s s1 : state) (u : unit) :
  redirect h p s = (s1, Return u) ->
  trace s1 = trace s
  /\ (files s1 = files s \/ files s1 = <[p := Capture]> (files s)).
Proof.
  unfold redirect. destruct (writable h (trace s) p); intros [= <- _]; simpl; auto.
Qed.

Lemma try_finally_returns {A} (body : M A) (final : M unit) (s s' : state) (a : A) :
  try_finally body final s = (s', Return a) ->
  exists s1, body s = (s1, Return a) /\ final s1 = (s', Return tt).
Proof.
  unfold try_finally. destruct (body s) as [s1 r].
  destruct (final s1) as [s2 [[]|e]] eqn:Hf; [|discriminate].
  intros [= <- ->]. eauto.
Qed.

Lemma try_except_returns {A} (body : M A) (handler : exn -> M A) (s s' : state) (a : A) :
  try_except body handler s = (s', Return a) ->
  body s = (s', Return a)
  \/ exists s1 e, body s = (s1, Raise e) /\ handler e s1 = (s', Return a).
Proof.
  unfold try_except. destruct (body s) as [s1 [a'|e]]; [left | right]; eauto.
Qed.

Lemma setup_tc_frame (h : host) (interface : string) (b d q : Z) :
  writes_only (fun _ => False) (Tc.setup_tc h interface b d q).
Proof. unfold Tc.setup_tc. framed. Qed.

Lemma teardown_frame (h : host) (interface : string) :
  writes_only (fun _ => False)
    (Tc.cleanup_tc h interface;; run_command h KillallIperf3 None;; mret tt).
Proof. unfold Tc.cleanup_tc. framed. Qed.

(** What a trial that returns 0 has done. *)
Lemma run_experiment_returns_zero (h : host) (cc profile : string) (runtime : Z)
    (s s' : state) :
  Tc.run_experiment h cc profile runtime s = (s', Return 0) ->
  exists d b q past data series result captured,
    Tc.profile_parameters profile = Some (d, b, q)
    /\ load_iperf h past (Tc.data_dir profile cc ++ ["iperf_result.json"]) = Some data
    /\ Tc.reduce cc profile d (default [] (intervals data)) = Some (series, result)
    /\ (captured = files s
        \/ captured = <[Tc.data_dir profile cc ++ ["iperf_result.json"] := Capture]> (files s))
    /\ files s' =
       <[Tc.data_dir profile cc ++ [cc +:+ "_throughput.csv"] :=
           Csv (Tc.throughput_csv series)]>
         (<[Tc.data_dir profile cc ++ ["result.json"] := Json result]> captured).
Proof.
  intros Hrun. unfold Tc.run_experiment in Hrun. rewrite bind_emit in Hrun.
  destruct (Tc.profile_parameters profile) as [[[d b] q]|]; [|discriminate].
  apply bind_returns in Hrun as (s1 & interface & Hi & Hrun).
  unfold Tc.get_default_interface in Hi. rewrite bind_history in Hi.
  destruct (default_interface h _) as [i|]; [|discriminate]. injection Hi as <- <-.
  destruct (i =? "")%string; [discriminate|].
  apply bind_returns in Hrun as (s2 & rc & Hsys & Hrun).
  apply run_command_returns in Hsys as [-> _].
  apply try_finally_returns in Hrun as (s3 & Hbody & Hfinal).
  pose proof (keeps_files _ (teardown_frame h i) s3) as Hkept.
  rewrite Hfinal in Hkept. cbn [fst] in Hkept.
  apply try_except_returns in Hbody as [Hbody|(s0 & e & _ & Hh)]; [|discriminate].
  apply bind_returns in Hbody as (s4 & [] & Hsetup & Hbody).
  match type of Hsetup with _ ?s2 = _ =>
    pose proof (keeps_files _ (setup_tc_frame h i b d q) s2) as Hsetup_files end.
  rewrite Hsetup in Hsetup_files. cbn [fst files] in Hsetup_files.
  apply bind_returns in Hbody as (s5 & rc1 & Hserver & Hbody).
  apply run_command_returns in Hserver as [-> _].
  apply bind_returns in Hbody as (s6 & rc2 & Hclient & Hbody).
  apply run_command_returns in Hclient as [-> _].
  apply bind_returns in Hbody as (s7 & u & Hred & Hbody).
  apply redirect_returns in Hred as [_ Hcaptured]. cbn [files] in Hcaptured.
  rewrite Hsetup_files in Hcaptured.
  apply bind_returns in Hbody as (s8 & data & Hload & Hbody).
  unfold Tc.load_iperf_result in Hload. rewrite bind_history in Hload.
  destruct (load_iperf h _ _) as [data'|] eqn:Hdata; [|discriminate].
  injection Hload as <- <-.
  destruct (Tc.reduce cc profile d _) as [[series result]|] eqn:Hreduce; [|discriminate].
  apply bind_returns in Hbody as (s9 & [] & Hjson & Hbody).
  apply write_file_inv in Hjson as ->.
  apply bind_returns in Hbody as (s10 & [] & Hcsv & Hbody).
  apply write_file_inv in Hcsv as ->.
  injection Hbody as <-.
  eexists d, b, q, _, data', series, result, (files s7).
  split; [reflexivity|]. split; [exact Hdata|]. split; [exact Hreduce|].
  split; [exact Hcaptured|]. rewrite Hkept. reflexivity.
Qed.

End RunnerInversions.

(** ** What a trial of [tc_experiment.py] leaves behind *)

Section TrialOutcome.
Import Sys Trace Observe PyData.
Local Open Scope string_scope.
Local Open Scope list_scope.

Lemma result_file_is_not_series (dir : path) (cc : string) :
  dir ++ ["result.json"] <> dir ++ [cc +:+ "_throughput.csv"].
Proof.
  intros H. apply app_inj_tail in H as [_ H]. apply (f_equal last_char) in H.
  rewrite last_char_append in H by discriminate. discriminate.
Qed.

(** X9: a trial that returns 0 has read a capture, and has stored the
    reducer's summary of it as [result.json] and the reducer's series as
    [<cc>_throughput.csv] in the directory of the trial; apart from these
    two files and the capture file [iperf_result.json], which the client
    command overwrites, every file is as it was before the trial. *)
Theorem successful_trial_is_stored (h : host) (cc profile : string) (runtime : Z)
    (s s' : state) :
  Tc.run_experiment h cc profile runtime s = (s', Return 0) ->
  exists d b q past data series result,
    Tc.profile_parameters profile = Some (d, b, q)
    /\ load_iperf h past (Tc.data_dir profile cc ++ ["iperf_result.json"]) = Some data
    /\ Tc.reduce cc profile d (default [] (intervals data)) = Some (series, result)
    /\ files s' !! (Tc.data_dir profile cc ++ ["result.json"]) = Some (Json result)
    /\ files s' !! (Tc.data_dir profile cc ++ [cc +:+ "_throughput.csv"])
       = Some (Csv (Tc.throughput_csv series))
    /\ (forall p, p <> Tc.data_dir profile cc ++ ["result.json"] ->
                  p <> Tc.data_dir profile cc ++ [cc +:+ "_throughput.csv"] ->
                  p <> Tc.data_dir profile cc ++ ["iperf_result.json"] ->
                  files s' !! p = files s !! p).
Proof.
  intros Hrun.
  destruct (run_experiment_returns_zero _ _ _ _ _ _ Hrun)
    as (d & b & q & past & data & series & result & captured
        & Hp & Hdata & Hreduce & Hcaptured & Hfiles).
  exists d, b, q, past, data, series, result.
  split; [exact Hp|]. split; [exact Hdata|]. split; [exact Hreduce|].
  rewrite Hfiles. split; [|split].
  - rewrite lookup_insert_ne by (apply not_eq_sym, result_file_is_not_series).
    apply lookup_insert_eq.
  - apply lookup_insert_eq.
  - intros p Hjson Hcsv Hcapture.
    rewrite lookup_insert_ne by (apply not_eq_sym, Hcsv).
    rewrite lookup_insert_ne by (apply not_eq_sym, Hjson).
    destruct Hcaptured as [-> | ->]; [reflexivity|].
    apply lookup_insert_ne, not_eq_sym, Hcapture.
Qed.

(** The theorem on the healthy host. *)
Lemma successful_trial_is_stored_witness :
  let run := Tc.run_experiment Examples.healthy "cubic" "profile1" 60 Examples.fresh in
  exists d b q past data series result,
    Tc.profile_parameters "profile1" = Some (d, b, q)
    /\ load_iperf Examples.healthy past
         (Tc.data_dir "profile1" "cubic" ++ ["iperf_result.json"]) = Some data
    /\ Tc.reduce "cubic" "profile1" d (default [] (intervals data)) = Some (series, result)
    /\ files run.1 !! (Tc.data_dir "profile1" "cubic" ++ ["result.json"])
       = Some (Json result)
    /\ files run.1 !! (Tc.data_dir "profile1" "cubic" ++ ["cubic" +:+ "_throughput.csv"])
       = Some (Csv (Tc.throughput_csv series))
    /\ (forall p, p <> Tc.data_dir "profile1" "cubic" ++ ["result.json"] ->
                  p <> Tc.data_dir "profile1" "cubic" ++ ["cubic" +:+ "_throughput.csv"] ->
                  p <> Tc.data_dir "profile1" "cubic" ++ ["iperf_result.json"] ->
                  files run.1 !! p = files Examples.fresh !! p).
Proof.
  intros run.
  apply (successful_trial_is_stored Examples.healthy "cubic" "profile1" 60
           Examples.fresh run.1).
  apply run_result. vm_compute. reflexivity.
Defined.

Lemma write_file_writable (h : host) (Hw : writes h) (p : path) (c : file) (s : state) :
  write_file h p c s = ({| trace := trace s; files := <[p := c]> (files s) |}, Return tt).
Proof. unfold write_file. rewrite Hw. reflexivity. Qed.

(** A computation of the guarded block either returns 0 or raises having
    written at most the files in [P]. *)
Lemma all_or_nothing_bind {A} (P : path -> Prop) (m : M A) (k : A -> M Z) :
  writes_only P m ->
  (forall a s, (k a s).2 = Return 0
               \/ ((forall p, ~ P p -> files (k a s).1 !! p = files s !! p)
                   /\ exists e, (k a s).2 = Raise e)) ->
  forall s, ((m ≫= k) s).2 = Return 0
            \/ ((forall p, ~ P p -> files ((m ≫= k) s).1 !! p = files s !! p)
                /\ exists e, ((m ≫= k) s).2 = Raise e).
Proof.
  intros Hm Hk s. pose proof (Hm s) as Hf. rewrite bind_run.
  destruct (m s) as [s1 [a|e]]; simpl in Hf.
  - destruct (Hk a s1) as [H|[H1 H2]]; [left; exact H | right].
    split; [|exact H2]. intros p Hp. rewrite (H1 p Hp). apply Hf, Hp.
  - right. simpl. eauto.
Qed.

(** X10: on a host where files can be opened for writing, a trial that
    ends with a result other than 0 ends with 1 and has stored neither
    [result.json] nor the series: apart from the capture file
    [iperf_result.json], which the client command overwrites, every file is
    as it was, so what an earlier trial left under these names stays in
    place. *)
Theorem failed_trial_stores_no_result (h : host) (cc profile : string) (runtime : Z)
    (s : state) (code : Z) :
  writes h ->
  (Tc.run_experiment h cc profile runtime s).2 = Return code ->
  code <> 0 ->
  code = 1
  /\ forall p, p <> Tc.data_dir profile cc ++ ["iperf_result.json"] ->
               files (Tc.run_experiment h cc profile runtime s).1 !! p = files s !! p.
Proof.
  intros Hw. unfold Tc.run_experiment. rewrite bind_emit.
  destruct (Tc.profile_parameters profile) as [[[d b] q]|].
  2:{ rewrite ret_run. simpl. intros [= <-] _. auto. }
  rewrite bind_run. unfold Tc.get_default_interface. rewrite bind_history.
  destruct (default_interface h _) as [i|]; [|discriminate].
  rewrite ret_run. destruct (i =? "")%string.
  { rewrite ret_run. simpl. intros [= <-] _. auto. }
  rewrite bind_run, run_command_plain.
  destruct (popen h _ _) as [rc|]; [|discriminate].
  match goal with |- context [try_finally _ ?final _] => set (teardown := final) end.
  assert (Hkept : forall st, files (teardown st).1 = files st)
    by (apply keeps_files, teardown_frame).
  unfold try_finally.
  set (P := fun p : path => p = Tc.data_dir profile cc ++ ["iperf_result.json"]).
  assert (Hnone : forall A (m : M A), writes_only (fun _ => False) m -> writes_only P m).
  { intros A m. apply writes_only_weaken. intros p []. }
  match goal with |- context [try_except ?body ?handler ?st] =>
    assert (Hinner : (body st).2 = Return 0
                     \/ ((forall p, ~ P p -> files (body st).1 !! p = files st !! p)
                         /\ exists e, (body st).2 = Raise e));
    [|unfold try_except; destruct (body st) as [s3 [a|e]]] end.
  { apply all_or_nothing_bind; [apply Hnone, setup_tc_frame|]. intros _ s3.
    apply all_or_nothing_bind; [apply writes_only_run_command; exact I|]. intros _ s4.
    apply all_or_nothing_bind; [apply writes_only_run_command; exact I|]. intros _ s5.
    apply all_or_nothing_bind; [apply writes_only_redirect; reflexivity|]. intros _ s6.
    apply all_or_nothing_bind; [unfold Tc.load_iperf_result; framed|]. intros data s7.
    destruct (Tc.reduce cc profile d _) as [[series result]|].
    - left. rewrite bind_run, (write_file_writable h Hw). cbv beta iota.
      rewrite bind_run, (write_file_writable h Hw). reflexivity.
    - right. rewrite raise_run. simpl. eauto. }
  - specialize (Hkept s3). destruct (teardown s3) as [s4 [[]|e]]; [|discriminate].
    simpl. intros [= ->] Hne. destruct Hinner as [[= ->]|[_ [e [=]]]]. contradiction.
  - rewrite ret_run.
    specialize (Hkept s3). destruct (teardown s3) as [s4 [[]|e']]; [|discriminate].
    simpl in *. intros [= <-] _. split; [reflexivity|].
    destruct Hinner as [[=]|[Hfiles _]]. intros p Hp. rewrite Hkept. apply Hfiles, Hp.
Qed.

(** The theorem on a trial whose capture is lost. *)
Lemma failed_trial_stores_no_result_witness :
  let run := Tc.run_experiment Examples.one_capture_lost "cubic" "profile2" 60
               Examples.fresh in
  1 = 1
  /\ forall p, p <> Tc.data_dir "profile2" "cubic" ++ ["iperf_result.json"] ->
               files run.1 !! p = files Examples.fresh !! p.
Proof.
  apply (failed_trial_stores_no_result Examples.one_capture_lost "cubic" "profile2" 60
           Examples.fresh 1).
  - intros past p. reflexivity.
  - vm_compute. reflexivity.
  - discriminate.
Defined.

End TrialOutcome.

(** ** The commands of a trial *)

Section TrialCommands.
Import Sys Trace Observe PyData.
Local Open Scope string_scope.
Local Open Scope list_scope.

Variable h : host.
Hypothesis Hspawns : spawns h.

Lemma write_file_run (p : path) (c : file) (s : state) :
  write_file h p c s =
  if writable h (trace s) p
  then ({| trace := trace s; files := <[p := c]> (files s) |}, Return tt)
  else (s, Raise IOError).
Proof. reflexivity. Qed.

Lemma run_command_spawning (cmd : command) (s : state) :
  exists rc, run_command h cmd None s =
             ({| trace := trace s ++ [Spawn cmd]; files := files s |}, Return rc).
Proof.
  rewrite run_command_plain. destruct (Hspawns (trace s) cmd) as [rc ->]. eauto.
Qed.

Lemma setup_tc_spawning (interface : string) (b d q : Z) (s : state) :
  Tc.setup_tc h interface b d q s =
  ({| trace := trace s ++ [Call (setup_tc_call interface b d q);
                           Spawn (TcQdiscDelRoot interface);
                           Spawn (TcQdiscAddHtb interface);
                           Spawn (TcClassAddRate interface b);
                           Spawn (TcQdiscAddNetem interface d q)];
      files := files s |}, Return tt).
Proof.
  unfold Tc.setup_tc. rewrite bind_emit.
  do 4 (rewrite bind_run;
        match goal with |- context [run_command h ?c None ?st] =>
          destruct (run_command_spawning c st) as [? ->] end;
        cbv beta iota).
  rewrite ret_run. simpl. rewrite <- !app_assoc. reflexivity.
Qed.

Lemma teardown_spawning (interface : string) (s : state) :
  (Tc.cleanup_tc h interface;; run_command h KillallIperf3 None;; mret tt) s =
  ({| trace := trace s ++ [Call (cleanup_tc_call interface);
                           Spawn (TcQdiscDelRoot interface);
                           Spawn KillallIperf3];
      files := files s |}, Return tt).
Proof.
  unfold Tc.cleanup_tc. rewrite bind_run, bind_emit, bind_run.
  match goal with |- context [run_command h ?c None ?st] =>
    destruct (run_command_spawning c st) as [? ->] end.
  cbv beta iota. rewrite ret_run. cbv beta iota. rewrite bind_run.
  match goal with |- context [run_command h ?c None ?st] =>
    destruct (run_command_spawning c st) as [? ->] end.
  cbv beta iota. rewrite ret_run. simpl. rewrite <- !app_assoc. reflexivity.
Qed.

(** X11: on a host where every command can be started, a trial under a
    known profile with a default interface issues one fixed sequence of
    commands (congestion control, the four [tc] commands of the
    configuration, server, client, teardown, [killall]) whatever exit
    statuses the commands end with and whatever becomes of the capture and
    of the output files; it ends with result 0 or 1 and never raises. *)
Theorem trial_commands_fixed (s : state) (cc profile : string) (runtime d b q : Z)
    (interface : string) :
  Tc.profile_parameters profile = Some (d, b, q) ->
  default_interface h (trace s ++ [Call (run_experiment_call cc profile runtime)])
    = Some interface ->
  interface <> "" ->
  trace (Tc.run_experiment h cc profile runtime s).1 =
    trace s ++ [Call (run_experiment_call cc profile runtime);
                Spawn (SysctlCongestionControl cc);
                Call (setup_tc_call interface b d q);
                Spawn (TcQdiscDelRoot interface);
                Spawn (TcQdiscAddHtb interface);
                Spawn (TcClassAddRate interface b);
                Spawn (TcQdiscAddNetem interface d q);
                Spawn (Iperf3Server 5050);
                Spawn (Iperf3Client 5050 runtime
                         (Tc.data_dir profile cc ++ ["iperf_result.json"]));
                Call (cleanup_tc_call interface);
                Spawn (TcQdiscDelRoot interface);
                Spawn KillallIperf3]
  /\ ((Tc.run_experiment h cc profile runtime s).2 = Return 0
      \/ (Tc.run_experiment h cc profile runtime s).2 = Return 1).
Proof.
  intros Hp Hi Hne. unfold Tc.run_experiment. rewrite bind_emit, Hp.
  rewrite bind_run. unfold Tc.get_default_interface. rewrite bind_history.
  cbn [trace]. rewrite Hi, ret_run.
  apply String.eqb_neq in Hne. rewrite Hne.
  rewrite bind_run.
  match goal with |- context [run_command h ?c None ?st] =>
    destruct (run_command_spawning c st) as [rc ->] end.
  cbv beta iota. unfold try_finally, try_except.
  rewrite bind_run, setup_tc_spawning. cbv beta iota.
  rewrite bind_run.
  match goal with |- context [run_command h ?c None ?st] =>
    destruct (run_command_spawning c st) as [rc1 ->] end.
  cbv beta iota. rewrite bind_run.
  match goal with |- context [run_command h ?c None ?st] =>
    destruct (run_command_spawning c st) as [rc2 ->] end.
  cbv beta iota.
  match goal with |- context [(redirect h ?p ≫= ?k) ?st] =>
    set (tail := redirect h p ≫= k);
    assert (Htail : trace (tail st).1 = trace st
                    /\ forall a, (tail st).2 = Return a -> a = 0);
    [|destruct (tail st) as [s6 [a|e]]]
  end.
  { unfold tail. rewrite bind_run.
    assert (Hkeep : forall st1 st2 (u : unit),
              redirect h (Tc.data_dir profile cc ++ ["iperf_result.json"]) st1
              = (st2, Return u) -> trace st2 = trace st1)
      by (intros st1 st2 u Hr; apply redirect_returns in Hr; tauto).
    match goal with |- context [redirect h ?p ?st] =>
      specialize (Hkeep st); destruct (redirect h p st) as [s5 [[]|e]] eqn:Hred;
      [specialize (Hkeep _ _ eq_refl) | unfold redirect in Hred;
         destruct (writable h _ _); discriminate]
    end.
    rewrite <- Hkeep. generalize dependent s5. intros s5 _ _.
    rewrite bind_run. unfold Tc.load_iperf_result. rewrite bind_history.
    destruct (load_iperf h _ _) as [data|]; [|split; [reflexivity | intros ?; simpl; discriminate]].
    rewrite ret_run.
    destruct (Tc.reduce cc profile d _) as [[series result]|];
      [|split; [reflexivity | intros ?; simpl; discriminate]].
    rewrite bind_run, write_file_run.
    destruct (writable h _ _); cbv beta iota;
      [|split; [reflexivity | intros ?; simpl; discriminate]].
    rewrite bind_run, write_file_run.
    destruct (writable h _ _); cbv beta iota;
      [|split; [reflexivity | intros ?; simpl; discriminate]].
    rewrite ret_run. split; [reflexivity|]. intros a [= <-]. reflexivity. }
  - destruct Htail as [Htr Ha]. rewrite teardown_spawning. cbn [fst snd trace] in *.
    rewrite Htr, <- !app_assoc. split; [reflexivity|]. left. rewrite (Ha a eq_refl).
    reflexivity.
  - destruct Htail as [Htr _]. rewrite ret_run, teardown_spawning.
    cbn [fst snd trace] in *.
    rewrite Htr, <- !app_assoc. split; [reflexivity|]. right. reflexivity.
Qed.

End TrialCommands.

Section TrialCommandsWitness.
Import Sys Trace Observe.
Local Open Scope string_scope.
Local Open Scope list_scope.

(** The theorem on a trial whose capture is lost: the sequence is the one
    of a successful trial. *)
Lemma trial_commands_fixed_witness :
  let run := Tc.run_experiment Examples.one_capture_lost "cubic" "profile2" 60
               Examples.fresh in
  trace run.1 =
    [Call (run_experiment_call "cubic" "profile2" 60);
     Spawn (SysctlCongestionControl "cubic");
     Call (setup_tc_call "eth0" 1 200 25000);
     Spawn (TcQdiscDelRoot "eth0");
     Spawn (TcQdiscAddHtb "eth0");
     Spawn (TcClassAddRate "eth0" 1);
     Spawn (TcQdiscAddNetem "eth0" 200 25000);
     Spawn (Iperf3Server 5050);
     Spawn (Iperf3Client 5050 60 (Tc.data_dir "profile2" "cubic" ++ ["iperf_result.json"]));
     Call (cleanup_tc_call "eth0");
     Spawn (TcQdiscDelRoot "eth0");
     Spawn KillallIperf3]
  /\ (run.2 = Return 0 \/ run.2 = Return 1).
Proof.
  apply (trial_commands_fixed Examples.one_capture_lost
           ltac:(intros past cmd; eexists; reflexivity)
           Examples.fresh "cubic" "profile2" 60 200 1 25000 "eth0").
  - reflexivity.
  - reflexivity.
  - discriminate.
Defined.

(** X12: under a profile other than [profile1] and [profile2] both runners
    return 1 at once: no command is started and no file is written. *)
Theorem unknown_profile_is_rejected (h : host) (name profile : string) (runtime : Z)
    (s : state) :
  profile <> "profile1" -> profile <> "profile2" ->
  Tc.run_experiment h name profile runtime s =
    ({| trace := trace s ++ [Call (run_experiment_call name profile runtime)];
        files := files s |}, Return 1)
  /\ Pantheon.run_single_experiment h name profile runtime s =
    ({| trace := trace s ++ [Call (run_single_experiment_call name profile runtime)];
        files := files s |}, Return 1).
Proof.
  intros H1 H2. apply String.eqb_neq in H1, H2.
  unfold Tc.run_experiment, Pantheon.run_single_experiment.
  rewrite !bind_emit. unfold Tc.profile_parameters, Pantheon.profile_parameters.
  rewrite H1, H2. split; reflexivity.
Qed.

Lemma unknown_profile_is_rejected_witness :
  Tc.run_experiment Examples.healthy "cubic" "profile3" 60 Examples.fresh =
    ({| trace := [Call (run_experiment_call "cubic" "profile3" 60)]; files := ∅ |},
     Return 1)
  /\ Pantheon.run_single_experiment Examples.healthy "cubic" "profile3" 60 Examples.fresh =
    ({| trace := [Call (run_single_experiment_call "cubic" "profile3" 60)]; files := ∅ |},
     Return 1).
Proof.
  apply (unknown_profile_is_rejected Examples.healthy "cubic" "profile3" 60 Examples.fresh);
    discriminate.
Defined.

End TrialCommandsWitness.

(** ** The batch of [tc_experiment.py] *)

Section TcBatch.
Import Sys Trace Observe PyData.
Local Open Scope string_scope.
Local Open Scope list_scope.

Lemma for_each_total {A} (xs : list A) (body : A -> M unit) :
  (forall x s, (body x s).2 = Return tt) ->
  forall s, (for_each xs body s).2 = Return tt.
Proof.
  intros Hb. induction xs as [|x xs IH]; intros s; [reflexivity|].
  simpl. change (bind (body x) (fun _ => for_each xs body) s)
    with ((body x ≫= fun _ => for_each xs body) s).
  rewrite bind_run. specialize (Hb x s).
  destruct (body x s) as [s1 [[]|e]]; [apply IH | discriminate].
Qed.

(** On a host where commands can be started and the default route can be
    queried, no exception leaves a trial. *)
Lemma run_experiment_total (h : host) (cc profile : string) (runtime : Z) (s : state) :
  spawns h -> routes h ->
  exists code, (Tc.run_experiment h cc profile runtime s).2 = Return code.
Proof.
  intros Hsp Hro. unfold Tc.run_experiment. rewrite bind_emit.
  destruct (Tc.profile_parameters profile) as [[[d b] q]|]; [|eexists; reflexivity].
  rewrite bind_run. unfold Tc.get_default_interface. rewrite bind_history.
  destruct (Hro (trace {| trace := trace s ++ [Call (run_experiment_call cc profile runtime)];
                          files := files s |})) as [i ->].
  rewrite ret_run. destruct (i =? "")%string; [eexists; reflexivity|].
  rewrite bind_run.
  match goal with |- context [run_command h ?c None ?st] =>
    destruct (run_command_spawning h Hsp c st) as [rc ->] end.
  cbv beta iota. unfold try_finally.
  match goal with |- context [try_except ?body ?handler ?st] =>
    assert (Hguard : exists code, (try_except body handler st).2 = Return code);
    [|destruct (try_except body handler st) as [s3 r]]
  end.
  { unfold try_except.
    match goal with |- context [match ?x with _ => _ end] =>
      destruct x as [s3 [a|e]] end; eexists; reflexivity. }
  rewrite (teardown_spawning h Hsp). exact Hguard.
Qed.

(** X13: on a host where commands can be started and the default route
    can be queried, [main] returns 0 as soon as one requested scheme is
    available, whatever the trials end with (lost captures, unknown
    profiles, files that cannot be written); the script exits with status 0. *)
Theorem tc_batch_reports_success (h : host) (a : Tc.args) (s : state) :
  spawns h -> routes h ->
  (exists scheme, scheme ∈ Tc.schemes a /\ scheme ∈ Tc.get_available_cc_algorithms h) ->
  (Tc.main h a s).2 = Return 0 /\ (Tc.exit_status h a s).2 = 0.
Proof.
  intros Hsp Hro (scheme & Hreq & Hav).
  assert (Hmain : (Tc.main h a s).2 = Return 0).
  { unfold Tc.main.
    destruct (List.filter _ (Tc.schemes a)) as [|x xs] eqn:Hf.
    { assert (Hin : In scheme (List.filter
                (fun scheme => bool_decide (scheme ∈ Tc.get_available_cc_algorithms h))
                (Tc.schemes a))).
      { apply filter_In. split; [apply list_elem_of_In, Hreq|].
        apply bool_decide_eq_true. exact Hav. }
      rewrite Hf in Hin. destruct Hin. }
    rewrite bind_run.
    match goal with |- context [for_each ?l ?body s] =>
      pose proof (for_each_total l body) as Hloop end.
    lapply Hloop.
    - intros Hall. specialize (Hall s).
      destruct (for_each _ _ s) as [s1 [[]|e]]; [reflexivity | discriminate].
    - intros sch st. apply for_each_total. intros profile st'.
      rewrite bind_run.
      destruct (run_experiment_total h sch profile (Tc.runtime a) st' Hsp Hro) as [code Hc].
      destruct (Tc.run_experiment h sch profile (Tc.runtime a) st') as [s2 r].
      simpl in Hc. subst r. reflexivity. }
  split; [exact Hmain|]. unfold Tc.exit_status.
  destruct (Tc.main h a s) as [s1 r]. simpl in Hmain. subst r. reflexivity.
Qed.

(** A batch in which one of the two profiles is unknown. *)
Lemma tc_batch_reports_success_witness :
  (Tc.main Examples.one_capture_lost Examples.one_bad_profile Examples.fresh).2 = Return 0
  /\ (Tc.exit_status Examples.one_capture_lost Examples.one_bad_profile Examples.fresh).2 = 0.
Proof.
  apply (tc_batch_reports_success Examples.one_capture_lost Examples.one_bad_profile
           Examples.fresh).
  - intros past cmd. eexists. reflexivity.
  - intros past. eexists. reflexivity.
  - exists "cubic". split; [|simpl]; set_solver.
Defined.

(** X14: when none of the requested schemes is available, [main] returns 1
    without starting a trial, and the script still exits with status 0,
    because the return value of [main] is dropped. *)
Theorem tc_batch_without_schemes (h : host) (a : Tc.args) (s : state) :
  (forall scheme, scheme ∈ Tc.schemes a -> scheme ∉ Tc.get_available_cc_algorithms h) ->
  Tc.main h a s = (s, Return 1) /\ Tc.exit_status h a s = (s, 0).
Proof.
  intros Hnone.
  assert (Hmain : Tc.main h a s = (s, Return 1)).
  { unfold Tc.main.
    destruct (List.filter _ (Tc.schemes a)) as [|x xs] eqn:Hf; [reflexivity|].
    assert (Hin : In x (List.filter
              (fun scheme => bool_decide (scheme ∈ Tc.get_available_cc_algorithms h))
              (Tc.schemes a))) by (rewrite Hf; left; reflexivity).
    apply filter_In in Hin as [Hx Hav]. apply bool_decide_eq_true in Hav.
    destruct (Hnone x (proj2 (list_elem_of_In _ _) Hx) Hav). }
  split; [exact Hmain|]. unfold Tc.exit_status. rewrite Hmain. reflexivity.
Qed.

(** A host that offers cubic and bbr, asked for vegas. *)
Lemma tc_batch_without_schemes_witness :
  let a := {| Tc.schemes := ["vegas"]; Tc.profiles := ["profile1"]; Tc.runtime := 60 |} in
  Tc.main Examples.healthy a Examples.fresh = (Examples.fresh, Return 1)
  /\ Tc.exit_status Examples.healthy a Examples.fresh = (Examples.fresh, 0).
Proof.
  apply (tc_batch_without_schemes Examples.healthy
           {| Tc.schemes := ["vegas"]; Tc.profiles := ["profile1"]; Tc.runtime := 60 |}
           Examples.fresh).
  intros scheme Hin. apply list_elem_of_singleton in Hin as ->.
  simpl. intros Hav. repeat (apply elem_of_cons in Hav as [Hav|Hav]; [discriminate|]).
  inversion Hav.
Defined.

End TcBatch.

(** ** Probe, test and analysis in [run_experiments.py] *)

Section PantheonTrial.
Import Sys Trace Observe PyData.
Local Open Scope string_scope.
Local Open Scope list_scope.

(** Discharges [adds p 0 m] for straight-line code without events of kind [p]. *)
Ltac uncounted :=
  repeat first
    [ apply adds_ret
    | apply adds_raise
    | apply adds_history
    | apply adds_write_file
    | apply adds_run_command; reflexivity
    | apply adds_bind; [|intros ?]
    | match goal with
      | |- adds _ _ (match ?x with _ => _ end) => destruct x
      | |- adds _ _ (if ?x then _ else _) => destruct x
      end ].

(** X15: when the availability probe exits with status 0, the trial starts
    no installation, whatever happens afterwards. *)
Theorem available_scheme_is_not_installed (h : host) (s : state) (scheme profile : string)
    (runtime : Z) :
  popen h (trace s ++ [Call (run_single_experiment_call scheme profile runtime)])
    (PantheonDryRun scheme) = Some 0 ->
  count is_install (trace (Pantheon.run_single_experiment h scheme profile runtime s).1)
  = count is_install (trace s).
Proof.
  intros Hprobe. unfold Pantheon.run_single_experiment. rewrite bind_emit.
  destruct (Pantheon.profile_parameters profile) as [[[[d b] q] t]|].
  2:{ rewrite ret_run. simpl. rewrite count_snoc. simpl. lia. }
  rewrite bind_run, run_command_plain. cbn [trace]. rewrite Hprobe.
  cbv beta iota. change (negb (0 =? 0)%Z) with false. cbv beta iota.
  match goal with |- context [(?m ≫= ?k) ?st] =>
    assert (Hrest : adds is_install 0 (m ≫= k)); [|rewrite (Hrest st)] end.
  { uncounted. }
  cbn [trace]. rewrite !count_snoc. simpl. lia.
Qed.

(** The theorem on the healthy host. *)
Lemma available_scheme_is_not_installed_witness :
  count is_install
    (trace (Pantheon.run_single_experiment Examples.healthy "cubic" "profile1" 60
              Examples.fresh).1) = count is_install (trace Examples.fresh).
Proof.
  apply (available_scheme_is_not_installed Examples.healthy Examples.fresh
           "cubic" "profile1" 60).
  reflexivity.
Defined.

Lemma log_name_last (profile scheme : string) :
  last_char (profile +:+ "_" +:+ scheme +:+ ".log") = Some "g"%char.
Proof.
  rewrite last_char_append by (simpl; discriminate).
  destruct scheme as [|c scheme]; [reflexivity|].
  change (last_char (String c scheme +:+ ".log") = Some "g"%char).
  rewrite last_char_append by discriminate. reflexivity.
Qed.

Lemma log_is_not_analysis_log (dir : path) (name : string) :
  last_char name = Some "g"%char -> dir ++ [name] <> dir ++ [name +:+ ".analyze"].
Proof.
  intros Hg H. apply app_inj_tail in H as [_ H]. apply (f_equal last_char) in H.
  rewrite last_char_append, Hg in H by discriminate. discriminate.
Qed.

(** X16: a trial under a known profile that returns has started the test
    command with its log file opened, and its result is the exit status of
    the last command it started: of the test command if that is not 0, and
    otherwise of the analysis command, which is started only after a test
    that exited with 0.  So a trial returns 0 only when both have exited
    with 0. *)
Theorem pantheon_trial_result (h : host) (s s' : state) (scheme profile : string)
    (runtime code d b q : Z) (trace_file : path) :
  let data_dir := base_dir ++ ["data"; profile +:+ "_" +:+ scheme] in
  let log_file := profile +:+ "_" +:+ scheme +:+ ".log" in
  let test := PantheonTest scheme data_dir runtime trace_file d q in
  let analyze := PantheonAnalyze data_dir in
  Pantheon.profile_parameters profile = Some (d, b, q, trace_file) ->
  Pantheon.run_single_experiment h scheme profile runtime s = (s', Return code) ->
  files s' !! (base_dir ++ ["logs"; log_file]) = Some Log
  /\ exists past,
       (code <> 0
        /\ trace s' = past ++ [Spawn test]
        /\ popen h past test = Some code)
       \/ (trace s' = past ++ [Spawn test; Spawn analyze]
           /\ popen h past test = Some 0
           /\ popen h (past ++ [Spawn test]) analyze = Some code
           /\ files s' !! (base_dir ++ ["logs"; log_file +:+ ".analyze"]) = Some Log).
Proof.
  intros data_dir log_file test analyze Hp Hrun.
  unfold Pantheon.run_single_experiment in Hrun. rewrite bind_emit, Hp in Hrun.
  apply bind_returns in Hrun as (s1 & probe & _ & Hrun).
  apply bind_returns in Hrun as (s2 & [] & _ & Hrun).
  apply bind_returns in Hrun as (s3 & rc & Htest & Hrun).
  apply run_command_logged_returns in Htest as [-> Htest].
  destruct (Z.eqb_spec rc 0) as [Hrc|Hrc]; cbn [negb] in Hrun.
  - subst rc.
    apply bind_returns in Hrun as (s4 & rc & Han & Hrun).
    apply run_command_logged_returns in Han as [-> Han].
    injection Hrun as <- ->. cbn [trace files] in *. split.
    + rewrite lookup_insert_ne; [apply lookup_insert_eq|].
      apply not_eq_sym.
      exact (log_is_not_analysis_log (base_dir ++ ["logs"]) _ (log_name_last profile scheme)).
    + exists (trace s2). right.
      split; [rewrite <- app_assoc; reflexivity|].
      split; [exact Htest|]. split; [exact Han|]. apply lookup_insert_eq.
  - injection Hrun as <- ->. cbn [trace files]. split; [apply lookup_insert_eq|].
    exists (trace s2). left. auto.
Qed.

(** The theorem on the host where the test of vivace under profile1 fails. *)
Lemma pantheon_trial_result_witness :
  let run := Pantheon.run_single_experiment Examples.one_test_fails "vivace" "profile1" 60
               Examples.fresh in
  let data_dir := base_dir ++ ["data"; "profile1" +:+ "_" +:+ "vivace"] in
  let log_file := "profile1" +:+ "_" +:+ "vivace" +:+ ".log" in
  let test := PantheonTest "vivace" data_dir 60 (base_dir ++ ["traces"; "50mbps.trace"])
                10 62500 in
  let analyze := PantheonAnalyze data_dir in
  files run.1 !! (base_dir ++ ["logs"; log_file]) = Some Log
  /\ exists past,
       (1 <> 0
        /\ trace run.1 = past ++ [Spawn test]
        /\ popen Examples.one_test_fails past test = Some 1)
       \/ (trace run.1 = past ++ [Spawn test; Spawn analyze]
           /\ popen Examples.one_test_fails past test = Some 0
           /\ popen Examples.one_test_fails (past ++ [Spawn test]) analyze = Some 1
           /\ files run.1 !! (base_dir ++ ["logs"; log_file +:+ ".analyze"]) = Some Log).
Proof.
  intros run.
  apply (pantheon_trial_result Examples.one_test_fails Examples.fresh run.1
           "vivace" "profile1" 60 1 10 50 62500 (base_dir ++ ["traces"; "50mbps.trace"])).
  - reflexivity.
  - apply run_result. vm_compute. reflexivity.
Defined.

End PantheonTrial.

(** ** From the trial runner to the manual analysis *)

Section WriterAndReader.
Import Sys Trace Observe PyData.
Local Open Scope string_scope.
Local Open Scope list_scope.

Lemma known_profile (profile : string) (d b q : Z) :
  Tc.profile_parameters profile = Some (d, b, q) ->
  profile = "profile1" \/ profile = "profile2".
Proof.
  unfold Tc.profile_parameters.
  destruct (String.eqb_spec profile "profile1") as [->|_]; [auto|].
  destruct (String.eqb_spec profile "profile2") as [->|_]; [auto | discriminate].
Qed.

(** X17: what a successful trial of [tc_experiment.py] stores is what
    [analyze_manual_results.py] finds and reads back: the directory is
    listed, its name is split into the profile and the scheme of the trial
    (also when the scheme name contains underscores), and the entry loaded
    for it is made of the summary and the series that the trial reduced
    from its capture and stored: the round-trip time is twice the profile's
    delay, the throughput is the stored average under the profile's
    ceiling, the loss rate is the stored one, and the throughput data is
    the stored series file. *)
Theorem stored_trial_is_read_back (h : host) (cc profile : string) (runtime : Z)
    (s s' : state) :
  Tc.run_experiment h cc profile runtime s = (s', Return 0) ->
  exists d b q past data series result,
    Tc.profile_parameters profile = Some (d, b, q)
    /\ load_iperf h past (Tc.data_dir profile cc ++ ["iperf_result.json"]) = Some data
    /\ Tc.reduce cc profile d (default [] (intervals data)) = Some (series, result)
    /\ files s' !! (Tc.data_dir profile cc ++ ["result.json"]) = Some (Json result)
    /\ files s' !! (Tc.data_dir profile cc ++ [cc +:+ "_throughput.csv"])
       = Some (Csv (Tc.throughput_csv series))
    /\ (profile +:+ "_" +:+ cc) ∈ glob_result_dirs (files s') (base_dir ++ ["data"])
    /\ AnalyzeManual.load_result (files s') (base_dir ++ ["data"]) (profile +:+ "_" +:+ cc)
       = Some (profile, cc,
               {| AnalyzeManual.avg_throughput :=
                    AnalyzeManual.adjusted_throughput profile result;
                  AnalyzeManual.avg_delay := inject_Z (d * 2);
                  AnalyzeManual.loss_rate := default 0%Q (loss_rate result);
                  AnalyzeManual.throughput_data := Tc.throughput_csv series |}).
Proof.
  intros Hrun.
  destruct (run_experiment_returns_zero _ _ _ _ _ _ Hrun)
    as (d & b & q & past & data & series & result & captured
        & Hp & Hdata & Hreduce & _ & Hfiles).
  exists d, b, q, past, data, series, result.
  split; [exact Hp|]. split; [exact Hdata|]. split; [exact Hreduce|].
  assert (Hjson : files s' !! (base_dir ++ ["data"] ++ [profile +:+ "_" +:+ cc; "result.json"])
                  = Some (Json result)).
  { rewrite Hfiles.
    rewrite lookup_insert_ne
      by (apply not_eq_sym, (result_file_is_not_series (Tc.data_dir profile cc) cc)).
    apply (lookup_insert_eq captured (Tc.data_dir profile cc ++ ["result.json"])). }
  assert (Hcsv : files s' !! (base_dir ++ ["data"] ++
                              [profile +:+ "_" +:+ cc; cc +:+ "_throughput.csv"])
                 = Some (Csv (Tc.throughput_csv series))).
  { rewrite Hfiles.
    apply (lookup_insert_eq _ (Tc.data_dir profile cc ++ [cc +:+ "_throughput.csv"])). }
  assert (Hdelay : avg_delay result = Some (inject_Z (d * 2))).
  { destruct (reduce_characterised d cc profile (default [] (intervals data)))
      as (series' & _ & Hr).
    rewrite Hreduce in Hr. injection Hr as _ ->. reflexivity. }
  split; [exact Hjson|]. split; [exact Hcsv|].
  assert (Hname : split_once (profile +:+ "_" +:+ cc) = Some (profile, cc)
                  /\ hidden (profile +:+ "_" +:+ cc) = false).
  { destruct (known_profile _ _ _ _ Hp) as [->| ->]; split; reflexivity. }
  destruct Hname as [Hsplit Hhidden].
  split.
  - apply (glob_result_dirs_elem (files s') (base_dir ++ ["data"]) _ (Json result));
      [exact Hjson | exact Hhidden].
  - unfold AnalyzeManual.load_result. rewrite Hsplit.
    change ((base_dir ++ ["data"]) ++ [profile +:+ "_" +:+ cc; "result.json"])
      with (base_dir ++ ["data"] ++ [profile +:+ "_" +:+ cc; "result.json"]).
    change ((base_dir ++ ["data"]) ++ [profile +:+ "_" +:+ cc; cc +:+ "_throughput.csv"])
      with (base_dir ++ ["data"] ++ [profile +:+ "_" +:+ cc; cc +:+ "_throughput.csv"]).
    rewrite Hjson, Hcsv, Hdelay. reflexivity.
Qed.

(** The theorem on the healthy host, for a scheme whose name has an underscore. *)
Lemma stored_trial_is_read_back_witness :
  let run := Tc.run_experiment Examples.healthy "tcp_bbr" "profile1" 60 Examples.fresh in
  exists d b q past data series result,
    Tc.profile_parameters "profile1" = Some (d, b, q)
    /\ load_iperf Examples.healthy past
         (Tc.data_dir "profile1" "tcp_bbr" ++ ["iperf_result.json"]) = Some data
    /\ Tc.reduce "tcp_bbr" "profile1" d (default [] (intervals data)) = Some (series, result)
    /\ files run.1 !! (Tc.data_dir "profile1" "tcp_bbr" ++ ["result.json"])
       = Some (Json result)
    /\ files run.1 !! (Tc.data_dir "profile1" "tcp_bbr" ++ ["tcp_bbr" +:+ "_throughput.csv"])
       = Some (Csv (Tc.throughput_csv series))
    /\ ("profile1" +:+ "_" +:+ "tcp_bbr") ∈ glob_result_dirs (files run.1) (base_dir ++ ["data"])
    /\ AnalyzeManual.load_result (files run.1) (base_dir ++ ["data"])
         ("profile1" +:+ "_" +:+ "tcp_bbr")
       = Some ("profile1", "tcp_bbr",
               {| AnalyzeManual.avg_throughput :=
                    AnalyzeManual.adjusted_throughput "profile1" result;
                  AnalyzeManual.avg_delay := inject_Z (d * 2);
                  AnalyzeManual.loss_rate := default 0%Q (loss_rate result);
                  AnalyzeManual.throughput_data := Tc.throughput_csv series |}).
Proof.
  intros run.
  apply (stored_trial_is_read_back Examples.healthy "tcp_bbr" "profile1" 60
           Examples.fresh run.1).
  apply run_result. vm_compute. reflexivity.
Defined.

End WriterAndReader.

(** ** What the manual analysis accepts *)

Section ManualRecords.
Import Sys Trace Observe PyData.
Local Open Scope string_scope.
Local Open Scope list_scope.

Variable fs : gmap path file.
Variable data_dir : path.

(** What a loaded record is made of. *)
Lemma load_result_inv (d profile scheme : string) (e : AnalyzeManual.entry) :
  AnalyzeManual.load_result fs data_dir d = Some (profile, scheme, e) ->
  d = profile +:+ "_" +:+ scheme
  /\ exists r,
       fs !! (data_dir ++ [d; "result.json"]) = Some (Json r)
       /\ AnalyzeManual.avg_throughput e = AnalyzeManual.adjusted_throughput profile r
       /\ AnalyzeManual.avg_delay e = default 0%Q (avg_delay r)
       /\ AnalyzeManual.loss_rate e = default 0%Q (loss_rate r).
Proof.
  unfold AnalyzeManual.load_result.
  destruct (split_once d) as [[p0 s0]|] eqn:Hsplit; [|discriminate].
  destruct (fs !! (data_dir ++ [d; "result.json"])) as [[r| | | |]|] eqn:Hfile;
    try discriminate.
  intros [= <- <- <-]. split; [apply split_once_join, Hsplit|].
  exists r. auto.
Qed.

(** Every entry of [results] was loaded from the directory named after its
    two keys. *)
Lemma collect_results_sound (result_files : list string) (profile scheme : string)
    (e : AnalyzeManual.entry) :
  dict_get2 profile scheme (AnalyzeManual.collect_results fs data_dir result_files) = Some e ->
  (profile +:+ "_" +:+ scheme) ∈ result_files
  /\ AnalyzeManual.load_result fs data_dir (profile +:+ "_" +:+ scheme)
     = Some (profile, scheme, e).
Proof.
  unfold AnalyzeManual.collect_results.
  set (step := fun results dir_name =>
                 match AnalyzeManual.load_result fs data_dir dir_name with
                 | Some (profile, scheme, e) => dict_set2 profile scheme e results
                 | None => results
                 end).
  assert (Hinv : forall l seen acc,
            (forall p sch en, dict_get2 p sch acc = Some en ->
               (p +:+ "_" +:+ sch) ∈ seen
               /\ AnalyzeManual.load_result fs data_dir (p +:+ "_" +:+ sch)
                  = Some (p, sch, en)) ->
            forall p sch en, dict_get2 p sch (fold_left step l acc) = Some en ->
              (p +:+ "_" +:+ sch) ∈ seen ++ l
              /\ AnalyzeManual.load_result fs data_dir (p +:+ "_" +:+ sch)
                 = Some (p, sch, en)).
  { induction l as [|x l IH]; intros seen acc Hacc p sch en Hget.
    - rewrite app_nil_r. apply Hacc, Hget.
    - simpl in Hget.
      replace (seen ++ x :: l) with ((seen ++ [x]) ++ l)
        by (rewrite <- app_assoc; reflexivity).
      refine (IH (seen ++ [x]) (step acc x) _ p sch en Hget).
      clear p sch en Hget. intros p sch en Hget. unfold step in Hget.
      destruct (AnalyzeManual.load_result fs data_dir x) as [[[p0 s0] e0]|] eqn:Hx.
      + destruct (decide ((p0, s0) = (p, sch))) as [[= -> ->]|Hne].
        * rewrite dict_get2_set2_eq in Hget. injection Hget as ->.
          destruct (load_result_inv _ _ _ _ Hx) as [-> _].
          split; [|exact Hx]. apply elem_of_app. right. apply list_elem_of_singleton.
          reflexivity.
        * rewrite dict_get2_set2_ne in Hget by exact Hne.
          destruct (Hacc _ _ _ Hget) as [Hin Hl]. split; [|exact Hl].
          apply elem_of_app. left. exact Hin.
      + destruct (Hacc _ _ _ Hget) as [Hin Hl]. split; [|exact Hl].
        apply elem_of_app. left. exact Hin. }
  intros Hget.
  apply (Hinv result_files [] [] ltac:(intros p sch en [=]) profile scheme e Hget).
Qed.

(** X18: every entry that the manual analysis tabulates and plots comes
    from a parseable [result.json] in the directory [<profile>_<scheme>];
    its round-trip time and loss rate are the stored ones, and its
    throughput is the stored one cut at the ceiling of the profile, so that
    no entry of [profile1] exceeds 50 and none of [profile2] exceeds 1. *)
Theorem results_come_from_records (result_files : list string) (profile scheme : string)
    (e : AnalyzeManual.entry) :
  dict_get2 profile scheme (AnalyzeManual.collect_results fs data_dir result_files) = Some e ->
  (profile +:+ "_" +:+ scheme) ∈ result_files
  /\ (exists r,
        fs !! (data_dir ++ [profile +:+ "_" +:+ scheme; "result.json"]) = Some (Json r)
        /\ AnalyzeManual.avg_throughput e = AnalyzeManual.adjusted_throughput profile r
        /\ AnalyzeManual.avg_delay e = default 0%Q (avg_delay r)
        /\ AnalyzeManual.loss_rate e = default 0%Q (loss_rate r))
  /\ (profile = "profile1" -> (AnalyzeManual.avg_throughput e <= 50)%Q)
  /\ (profile = "profile2" -> (AnalyzeManual.avg_throughput e <= 1)%Q).
Proof.
  intros Hget. destruct (collect_results_sound _ _ _ _ Hget) as [Hin Hload].
  destruct (load_result_inv _ _ _ _ Hload) as [_ (r & Hfile & Ht & Hd & Hl)].
  split; [exact Hin|]. split; [exists r; auto|].
  rewrite Ht. unfold AnalyzeManual.adjusted_throughput.
  split; intros ->; simpl; apply py_min_is_minimum.
Qed.

End ManualRecords.

Section ManualRecordsWitness.
Import Sys Trace Observe PyData.
Local Open Scope string_scope.
Local Open Scope list_scope.

(** The theorem on the store with the 3.4 Mbps record of profile2. *)
Lemma results_come_from_records_witness :
  let fs := files Examples.stored_overshoot in
  let e := {| AnalyzeManual.avg_throughput := 1;
              AnalyzeManual.avg_delay := 400;
              AnalyzeManual.loss_rate := 0;
              AnalyzeManual.throughput_data :=
                Tc.throughput_csv [{| Tc.time := 0; Tc.throughput := 34 # 10;
                                      Tc.delay := 400; Tc.loss := 0 |}] |} in
  ("profile2" +:+ "_" +:+ "cubic") ∈ ["profile2_cubic"]
  /\ (exists r,
        fs !! (Examples.data ++ ["profile2" +:+ "_" +:+ "cubic"; "result.json"])
          = Some (Json r)
        /\ AnalyzeManual.avg_throughput e = AnalyzeManual.adjusted_throughput "profile2" r
        /\ AnalyzeManual.avg_delay e = default 0%Q (avg_delay r)
        /\ AnalyzeManual.loss_rate e = default 0%Q (loss_rate r))
  /\ ("profile2" = "profile1" -> (AnalyzeManual.avg_throughput e <= 50)%Q)
  /\ ("profile2" = "profile2" -> (AnalyzeManual.avg_throughput e <= 1)%Q).
Proof.
  intros fs e.
  apply (results_come_from_records fs Examples.data ["profile2_cubic"] "profile2" "cubic" e).
  vm_compute. reflexivity.
Defined.

(** X19: when no directory below the data directory holds a parseable
    [result.json] under a name of the form [<profile>_<scheme>], the
    manual analysis returns 1 and writes nothing. *)
Theorem analysis_without_records (h : host) (data_dir output_dir : path) (s : state) :
  (forall profile scheme r,
     files s !! (data_dir ++ [profile +:+ "_" +:+ scheme; "result.json"]) <> Some (Json r)) ->
  AnalyzeManual.analyze_results h data_dir output_dir s = (s, Return 1).
Proof.
  intros Hnone.
  assert (Hload : forall d, AnalyzeManual.load_result (files s) data_dir d = None).
  { intros d.
    destruct (AnalyzeManual.load_result (files s) data_dir d) as [[[p sch] e]|] eqn:Hd;
      [|reflexivity].
    destruct (load_result_inv _ _ _ _ _ _ Hd) as [-> (r & Hfile & _)].
    destruct (Hnone _ _ _ Hfile). }
  assert (Hcollect : forall l, AnalyzeManual.collect_results (files s) data_dir l = []).
  { unfold AnalyzeManual.collect_results. intros l.
    induction l as [|x l IH]; [reflexivity|]. simpl. rewrite Hload. exact IH. }
  unfold AnalyzeManual.analyze_results. rewrite bind_run.
  change (read_files s) with (s, Return (files s)). cbv beta iota.
  destruct (glob_result_dirs (files s) data_dir); [reflexivity|].
  rewrite Hcollect. reflexivity.
Qed.

(** A store whose only record is kept in a directory without an underscore
    in its name. *)
Lemma analysis_without_records_witness :
  let s := {| trace := [];
              files := <[Examples.data ++ ["cubic"; "result.json"] :=
                           Json Examples.overshoot]> ∅ |} in
  AnalyzeManual.analyze_results Examples.healthy Examples.data Examples.graphs s
  = (s, Return 1).
Proof.
  intros s.
  apply (analysis_without_records Examples.healthy Examples.data Examples.graphs s).
  intros profile scheme r. unfold s. cbn [files].
  rewrite lookup_insert_ne; [rewrite lookup_empty; discriminate|].
  unfold Examples.data. intros H. apply app_inv_head in H.
  injection H as H. destruct profile as [|c profile]; [discriminate|].
  injection H as _ H. destruct profile as [|c1 profile]; [discriminate|].
  injection H as _ H. destruct profile as [|c2 profile]; [discriminate|].
  injection H as _ H. destruct profile as [|c3 profile]; [discriminate|].
  injection H as _ H. destruct profile as [|c4 profile]; [discriminate|].
  injection H as _ H. destruct profile as [|c5 profile]; discriminate.
Defined.

End ManualRecordsWitness.

(** ** The RTT comparison chart on the series of a trial *)

Section RttBars.
Import Sys Trace Observe PyData.
Local Open Scope string_scope.
Local Open Scope list_scope.

Lemma column_delay (series : list Tc.sample) :
  column (Tc.throughput_csv series) "delay" = Some (map Tc.delay series).
Proof.
  unfold column, Tc.throughput_csv. cbn [columns rows].
  change (list_find (fun c => c = "delay") ["time"; "throughput"; "delay"; "loss"])
    with (Some (2%nat, "delay")).
  cbv beta iota. induction series as [|smp series IH]; [reflexivity|].
  simpl in *. rewrite IH. reflexivity.
Qed.

Lemma insert_sorted_replicate (c : Q) (n : nat) :
  insert_sorted c (replicate n c) = replicate (S n) c.
Proof.
  destruct n as [|n]; [reflexivity|]. simpl.
  assert (H : Qle_bool c c = true) by (apply Qle_bool_iff, Qle_refl).
  rewrite H. reflexivity.
Qed.

Lemma sort_replicate (c : Q) (n : nat) :
  fold_right insert_sorted [] (replicate n c) = replicate n c.
Proof.
  induction n as [|n IH]; [reflexivity|].
  simpl. rewrite IH. apply insert_sorted_replicate.
Qed.

Lemma nth_replicate_same (c : Q) (n i : nat) : nth i (replicate n c) c = c.
Proof.
  revert i. induction n as [|n IH]; intros [|i]; simpl; auto.
Qed.

(** The percentile of a constant series is that constant. *)
Lemma percentile_replicate (c q : Q) (n : nat) :
  exists v, percentile (replicate (S n) c) q = Some v /\ (v == c)%Q.
Proof.
  unfold percentile. rewrite sort_replicate.
  change (replicate (S n) c) with (c :: replicate n c).
  cbv beta iota zeta. eexists. split; [reflexivity|].
  change (c :: replicate n c) with (replicate (S n) c).
  rewrite !nth_replicate_same. ring.
Qed.

(** X20: for the series of a trial of [tc_experiment.py], the
    95th-percentile bar of the RTT comparison chart is no measurement: with
    at least one interval it equals the average RTT of the summary, twice
    the profile's delay; for an empty capture it is 0. *)
Theorem p95_rtt_is_nominal (cc profile : string) (delay_ms : Z) (ivs : list interval)
    (s : state) :
  exists series result,
    Tc.reduce cc profile delay_ms ivs = Some (series, result)
    /\ avg_delay result = Some (inject_Z (delay_ms * 2))
    /\ (ivs <> [] ->
        exists v, RttChart.p95_rtt (Tc.throughput_csv series) s = (s, Return (Some v))
                  /\ (v == inject_Z (delay_ms * 2))%Q)
    /\ (ivs = [] ->
        RttChart.p95_rtt (Tc.throughput_csv series) s = (s, Return (Some 0%Q))).
Proof.
  destruct (reduce_characterised delay_ms cc profile ivs) as (series & Hm & Hr).
  eexists series, _. split; [exact Hr|]. split; [reflexivity|].
  assert (Hdelays : map Tc.delay series
                    = replicate (length ivs) (inject_Z (delay_ms * 2))).
  { clear Hr. apply mapM_Some in Hm. induction Hm as [|i smp ivs' series' Hi _ IH]; [reflexivity|].
    simpl. rewrite IH, (interval_sample_delay delay_ms i smp Hi). reflexivity. }
  split.
  - intros Hne. destruct ivs as [|i ivs]; [contradiction|].
    cbn [length] in Hdelays. destruct series as [|smp series']; [discriminate Hdelays|].
    destruct (percentile_replicate (inject_Z (delay_ms * 2)) 95 (length ivs))
      as (v & Hv & Heq).
    exists v. split; [|exact Heq].
    unfold RttChart.p95_rtt. rewrite column_delay.
    change (negb (RttChart.empty (Tc.throughput_csv (smp :: series')))
            && bool_decide ("delay" ∈ columns (Tc.throughput_csv (smp :: series'))))
      with true.
    cbv iota. rewrite Hdelays, Hv. reflexivity.
  - intros ->. simpl in Hm. injection Hm as <-. reflexivity.
Qed.

(** X21: both runners configure a profile alike: the delay, the bandwidth
    and the queue size that [run_experiments.py] writes down as constants
    are the ones that [tc_experiment.py] computes. *)
Theorem runners_agree_on_profiles (profile : string) :
  match Tc.profile_parameters profile, Pantheon.profile_parameters profile with
  | Some (d, b, q), Some (d', b', q', _) =>
      d = d' /\ b = b' /\ q = q' /\ q = Tc.queue_size b d
  | None, None => True
  | _, _ => False
  end.
Proof.
  unfold Tc.profile_parameters, Pantheon.profile_parameters.
  destruct (profile =? "profile1")%string; [repeat split; reflexivity|].
  destruct (profile =? "profile2")%string; [repeat split; reflexivity | exact I].
Qed.

End RttBars.

(** ** What the guarded block does not cover *)

Section Unguarded.
Import Sys Trace Observe.
Local Open Scope string_scope.
Local Open Scope list_scope.

(** X22: the query for the default interface comes before the guarded
    block of a trial: when it fails in the first trial of a batch, the
    exception leaves [run_experiment] and [main], no later trial is
    started, and the script ends with status 1. *)
Theorem route_failure_aborts_batch (h : host) (a : Tc.args) (s : state)
    (scheme profile : string) (later_schemes later_profiles : list string) (d b q : Z) :
  let first := Call (run_experiment_call scheme profile (Tc.runtime a)) in
  let stopped := {| trace := trace s ++ [first]; files := files s |} in
  List.filter (fun scheme => bool_decide (scheme ∈ Tc.get_available_cc_algorithms h))
    (Tc.schemes a) = scheme :: later_schemes ->
  Tc.profiles a = profile :: later_profiles ->
  Tc.profile_parameters profile = Some (d, b, q) ->
  default_interface h (trace s ++ [first]) = None ->
  Tc.main h a s = (stopped, Raise CalledProcessError)
  /\ Tc.exit_status h a s = (stopped, 1).
Proof.
  intros first stopped Hschemes Hprofiles Hp Hroute.
  assert (Htrial : Tc.run_experiment h scheme profile (Tc.runtime a) s
                   = (stopped, Raise CalledProcessError)).
  { unfold Tc.run_experiment. rewrite bind_emit, Hp, bind_run.
    unfold Tc.get_default_interface. rewrite bind_history. cbn [trace].
    fold first. rewrite Hroute. reflexivity. }
  assert (Hmain : Tc.main h a s = (stopped, Raise CalledProcessError)).
  { unfold Tc.main. rewrite Hschemes, Hprofiles. cbn [for_each].
    unfold mbind, M_bind, bind. rewrite Htrial. reflexivity. }
  split; [exact Hmain|]. unfold Tc.exit_status. rewrite Hmain. reflexivity.
Qed.

(** A host on which the query for the default route fails. *)
Lemma route_failure_aborts_batch_witness :
  let h := {| available_congestion_control := Some ["cubic"; "bbr"];
              default_interface := fun _ => None;
              popen := fun _ _ => Some 0;
              load_iperf := fun _ _ => None;
              writable := fun _ _ => true |} in
  let stopped := {| trace := [Call (run_experiment_call "cubic" "profile1" 60)];
                    files := ∅ |} in
  Tc.main h Examples.two_by_two Examples.fresh = (stopped, Raise CalledProcessError)
  /\ Tc.exit_status h Examples.two_by_two Examples.fresh = (stopped, 1).
Proof.
  intros h stopped.
  apply (route_failure_aborts_batch h Examples.two_by_two Examples.fresh
           "cubic" "profile1" ["bbr"] ["profile2"] 10 50 62500);
    reflexivity.
Defined.

End Unguarded.
